(** * The error-handling framework of the plugin template

    A shallow embedding of the TypeScript code of the error-handling
    framework (the [PluginError] class hierarchy, the retry and fallback
    strategy handlers of [ErrorHandler], the [retryAsync] utility and
    [getUserMessage]), followed by the properties established about it.

    Conventions of the embedding.
    - JavaScript numbers are integers of [Z]: the counters, delays and
      limits of this code are integer valued, and the model covers the range
      in which the floating point operations on them are exact.
    - An optional parameter or field ([code?], [maxRetries?]) is an [option];
      [None] is JavaScript's [undefined], so a default parameter value
      applies exactly at [None].
    - The clock reading of [new Date().toISOString()] and the stack captured
      by the [Error] constructor are supplied to a constructor by its
      environment; they are explicit arguments here.
    - An [async] function is a state transformer over the world of the
      wrapped operation together with the trace of what has been observed
      (operation calls and timer waits), in program order.  Console output
      is not part of the trace. *)

From Stdlib Require Import ZArith Lia Ascii String.
From stdpp Require Import base option strings gmap list.

#[local] Set Warnings "-register-all".

Local Open Scope Z_scope.
Local Open Scope string_scope.

(** ** JavaScript values *)

(** The values carried in [details], in [value], in the fallback table and
    in a [toJSON] dump.  An object literal keeps its keys in source order. *)
Inductive JsValue : Type :=
| JUndefined
| JNull
| JBool (b : bool)
| JNum (n : Z)
| JStr (s : string)
| JArr (items : list JsValue)
| JObj (fields : list (string * JsValue)).

(** Truthiness, as consulted by [||] and [if (...)]. *)
Definition truthy (v : JsValue) : bool :=
  match v with
  | JUndefined | JNull => false
  | JBool b => b
  | JNum n => negb (n =? 0)%Z
  | JStr s => negb (String.eqb s "")
  | JArr _ | JObj _ => true
  end.

(** [a || b] on values. *)
Definition js_or (a b : JsValue) : JsValue := if truthy a then a else b.

(** [n || d] where [n] is an optional number. *)
Definition num_or (n : option Z) (d : Z) : Z :=
  match n with
  | Some k => if (k =? 0)%Z then d else k
  | None => d
  end.

(** [if (n)] where [n] is an optional number. *)
Definition num_truthy (n : option Z) : bool :=
  match n with
  | Some k => negb (k =? 0)%Z
  | None => false
  end.

Definition of_opt_num (n : option Z) : JsValue :=
  match n with Some k => JNum k | None => JUndefined end.

Definition of_opt_str (s : option string) : JsValue :=
  match s with Some t => JStr t | None => JUndefined end.

(** Property read [o.k] on an object value; a missing key reads
    [undefined]. *)
Fixpoint assoc (k : string) (fields : list (string * JsValue)) : JsValue :=
  match fields with
  | [] => JUndefined
  | (k', v) :: rest => if String.eqb k k' then v else assoc k rest
  end.

Definition js_get (o : JsValue) (k : string) : JsValue :=
  match o with
  | JObj fields => assoc k fields
  | _ => JUndefined
  end.

(** [String.prototype.toLowerCase] on the ASCII letters, which is all that
    class names contain. *)
Definition lower_ascii (c : ascii) : ascii :=
  let n := nat_of_ascii c in
  if (andb (Nat.leb 65 n) (Nat.leb n 90)) then ascii_of_nat (n + 32) else c.

Fixpoint toLowerCase (s : string) : string :=
  match s with
  | EmptyString => EmptyString
  | String c rest => String (lower_ascii c) (toLowerCase rest)
  end.

(** ** The error taxonomy *)

Module Errors.

(** What [ServiceError] subclasses add: [NetworkError] adds [status] and
    [url]. *)
Inductive ServiceExt : Type :=
| SvcPlain
| SvcNetwork (status : option Z) (url : option string).

(** What the subclasses of [PluginError] add to it. *)
Inductive PluginExt : Type :=
| ExtPlain
| ExtService (service : string) (sub : ServiceExt)
| ExtValidation (field : option string) (value : JsValue).

(** An instance of [PluginError] or of one of its subclasses.  The first
    three fields are those of the built-in [Error]. *)
Record PluginErr : Type := mkPluginErr {
  name : string;
  message : string;
  stack : option string;
  code : string;
  details : JsValue;
  timestamp : string;
  recoverable : bool;
  ext : PluginExt
}.

Definition set_name (n : string) (e : PluginErr) : PluginErr :=
  mkPluginErr n (message e) (stack e) (code e) (details e) (timestamp e)
              (recoverable e) (ext e).

Definition set_message (m : string) (e : PluginErr) : PluginErr :=
  mkPluginErr (name e) m (stack e) (code e) (details e) (timestamp e)
              (recoverable e) (ext e).

Definition set_ext (x : PluginExt) (e : PluginErr) : PluginErr :=
  mkPluginErr (name e) (message e) (stack e) (code e) (details e)
              (timestamp e) (recoverable e) x.

(** An error that is not a [PluginError]: a built-in [Error] or one of
    its other subclasses; [ctor] is the name of its constructor. *)
Record ForeignErr : Type := mkForeignErr {
  ctor : string;
  fname : string;
  fmessage : string;
  fstack : option string
}.

(** Any value of static type [Error]. *)
Inductive JsError : Type :=
| Foreign (e : ForeignErr)
| Framework (e : PluginErr).

(** The classes of the hierarchy, for [instanceof] and
    [constructor.name]. *)
Inductive ErrorClass : Type :=
| CError | CPluginError | CServiceError | CValidationError | CNetworkError.

Definition class_name (c : ErrorClass) : string :=
  match c with
  | CError => "Error"
  | CPluginError => "PluginError"
  | CServiceError => "ServiceError"
  | CValidationError => "ValidationError"
  | CNetworkError => "NetworkError"
  end.

(** The most derived framework class of a [PluginErr]. *)
Definition class_of (e : PluginErr) : ErrorClass :=
  match ext e with
  | ExtPlain => CPluginError
  | ExtService _ SvcPlain => CServiceError
  | ExtService _ (SvcNetwork _ _) => CNetworkError
  | ExtValidation _ _ => CValidationError
  end.

(** [class C extends D]: the reflexive, transitive subclass relation
    of the declarations. *)
Definition extends (c d : ErrorClass) : bool :=
  match d, c with
  | CError, _ => true
  | CPluginError, (CPluginError | CServiceError | CValidationError | CNetworkError) => true
  | CServiceError, (CServiceError | CNetworkError) => true
  | CValidationError, CValidationError => true
  | CNetworkError, CNetworkError => true
  | _, _ => false
  end.

(** [error instanceof C]. *)
Definition instanceof (e : JsError) (c : ErrorClass) : bool :=
  match e with
  | Foreign _ => match c with CError => true | _ => false end
  | Framework p => extends (class_of p) c
  end.

(** [error.constructor.name]. *)
Definition constructor_name (e : JsError) : string :=
  match e with
  | Foreign f => ctor f
  | Framework p => class_name (class_of p)
  end.

(** [error.message]. *)
Definition message_of (e : JsError) : string :=
  match e with
  | Foreign f => fmessage f
  | Framework p => message p
  end.

(** *** Constructors

    Each takes, after the arguments of the TypeScript constructor, the
    clock reading [now] and the captured stack [stk]. *)

(** [new PluginError(message, code = 'PLUGIN_ERROR', details?,
    recoverable = true)]. *)
Definition PluginError (message : string) (code : option string)
    (details : JsValue) (recoverable : option bool)
    (now : string) (stk : option string) : PluginErr :=
  {| name := "PluginError";
     message := message;
     stack := stk;
     code := default "PLUGIN_ERROR" code;
     details := details;
     timestamp := now;
     recoverable := default true recoverable;
     ext := ExtPlain |}.

(** [new ServiceError(message, service, code = 'SERVICE_ERROR', details?,
    recoverable = true)]: [super(message, code, details, recoverable)],
    then [name] and [service] are set. *)
Definition ServiceError (message service : string) (code : option string)
    (details : JsValue) (recoverable : option bool)
    (now : string) (stk : option string) : PluginErr :=
  let this :=
    PluginError message (Some (default "SERVICE_ERROR" code)) details
                (Some (default true recoverable)) now stk in
  set_ext (ExtService service SvcPlain) (set_name "ServiceError" this).

(** [new ValidationError(message, field?, value?,
    code = 'VALIDATION_ERROR')]:
    [super(message, code, { field, value }, false)]. *)
Definition ValidationError (message : string) (field : option string)
    (value : JsValue) (code : option string)
    (now : string) (stk : option string) : PluginErr :=
  let this :=
    PluginError message (Some (default "VALIDATION_ERROR" code))
                (JObj [("field", of_opt_str field); ("value", value)])
                (Some false) now stk in
  set_ext (ExtValidation field value) (set_name "ValidationError" this).

(** [new NetworkError(message, status?, url?, code = 'NETWORK_ERROR')]:
    [super(message, 'network', code, { status, url }, true)]. *)
Definition NetworkError (message : string) (status : option Z)
    (url : option string) (code : option string)
    (now : string) (stk : option string) : PluginErr :=
  let this :=
    ServiceError message "network" (Some (default "NETWORK_ERROR" code))
                 (JObj [("status", of_opt_num status); ("url", of_opt_str url)])
                 (Some true) now stk in
  set_ext (ExtService "network" (SvcNetwork status url))
          (set_name "NetworkError" this).

(** A call of one of the four constructors, with the arguments the caller
    passes. *)
Inductive Construction : Type :=
| NewPluginError (message : string) (code : option string)
    (details : JsValue) (recoverable : option bool)
| NewServiceError (message service : string) (code : option string)
    (details : JsValue) (recoverable : option bool)
| NewValidationError (message : string) (field : option string)
    (value : JsValue) (code : option string)
| NewNetworkError (message : string) (status : option Z)
    (url : option string) (code : option string).

(** The record the call produces. *)
Definition construct (c : Construction) (now : string) (stk : option string)
  : PluginErr :=
  match c with
  | NewPluginError m co d r => PluginError m co d r now stk
  | NewServiceError m sv co d r => ServiceError m sv co d r now stk
  | NewValidationError m f v co => ValidationError m f v co now stk
  | NewNetworkError m st u co => NetworkError m st u co now stk
  end.

(** The [code] argument of the call ([None] when the caller leaves it
    out). *)
Definition passed_code (c : Construction) : option string :=
  match c with
  | NewPluginError _ co _ _ | NewServiceError _ _ co _ _
  | NewValidationError _ _ _ co | NewNetworkError _ _ _ co => co
  end.

(** The [recoverable] argument of the call; the Validation and Network
    constructors have no such parameter. *)
Definition passed_recoverable (c : Construction) : option bool :=
  match c with
  | NewPluginError _ _ _ r | NewServiceError _ _ _ _ r => r
  | NewValidationError _ _ _ _ | NewNetworkError _ _ _ _ => None
  end.

(** The default of the [code] parameter of each constructor. *)
Definition default_code (c : Construction) : string :=
  match c with
  | NewPluginError _ _ _ _ => "PLUGIN_ERROR"
  | NewServiceError _ _ _ _ _ => "SERVICE_ERROR"
  | NewValidationError _ _ _ _ => "VALIDATION_ERROR"
  | NewNetworkError _ _ _ _ => "NETWORK_ERROR"
  end.

(** [PluginError.prototype.toJSON], inherited unchanged by every
    subclass. *)
Definition toJSON (e : PluginErr) : JsValue :=
  JObj [ ("name", JStr (name e));
         ("message", JStr (message e));
         ("code", JStr (code e));
         ("details", details e);
         ("timestamp", JStr (timestamp e));
         ("recoverable", JBool (recoverable e));
         ("stack", of_opt_str (stack e)) ].

(** [error.service], rendered inside a template literal; the property is
    absent ([undefined]) on anything that is not a [ServiceError]. *)
Definition service_of (e : JsError) : string :=
  match e with
  | Framework p =>
      match ext p with
      | ExtService service _ => service
      | _ => "undefined"
      end
  | Foreign _ => "undefined"
  end.

(** [getUserMessage]. *)
Definition getUserMessage (error : JsError) : string :=
  if instanceof error CValidationError then
    "Please check your input: " ++ message_of error
  else if instanceof error CNetworkError then
    "Network connection issue. Please try again."
  else if instanceof error CServiceError then
    "Service temporarily unavailable: " ++ service_of error
  else
    "An unexpected error occurred. Please try again.".

End Errors.

(** ** Asynchronous code as a state transformer *)

Module Async.

(** What a run leaves behind, in program order. *)
Inductive Event : Type :=
| ECall                 (* the wrapped operation was invoked *)
| EDelay (ms : Z).      (* a timer of [ms] milliseconds was awaited *)

Section Monad.
(** [W] is the part of the world the wrapped operation acts on. *)
Context {W : Type}.

Record Run : Type := mkRun { world : W; trace : list Event }.

Definition M (A : Type) : Type := Run -> A * Run.

Definition ret {A} (a : A) : M A := fun r => (a, r).

Definition bind {A B} (m : M A) (k : A -> M B) : M B :=
  fun r => let (a, r') := m r in k a r'.

Definition emit (e : Event) : M unit :=
  fun r => (tt, mkRun (world r) (trace r ++ [e])).

(** [await new Promise(resolve => setTimeout(resolve, ms))]. *)
Definition delay (ms : Z) : M unit := emit (EDelay ms).

(** [await operation()]: the operation runs on the world, and the call
    is recorded. *)
Definition invoke {A} (operation : W -> A * W) : M A :=
  fun r =>
    let (a, w') := operation (world r) in
    (a, mkRun w' (trace r ++ [ECall])).

Definition start (w : W) : Run := mkRun w [].
End Monad.

Arguments Run : clear implicits.
Arguments M : clear implicits.

(** The timer waits of a trace, in order. *)
Fixpoint delays (t : list Event) : list Z :=
  match t with
  | [] => []
  | ECall :: rest => delays rest
  | EDelay ms :: rest => ms :: delays rest
  end.

(** Total time, in milliseconds, spent waiting on timers. *)
Definition waited (t : list Event) : Z := foldr Z.add 0 (delays t).

(** Number of invocations of the operation recorded in a trace. *)
Fixpoint invocations (t : list Event) : nat :=
  match t with
  | [] => O
  | ECall :: rest => S (invocations rest)
  | EDelay _ :: rest => invocations rest
  end.

End Async.

(** ** The error handler and the retry utility *)

Module Handler.
Import Errors Async.

(** The configuration object given to [new ErrorHandler(...)]; every
    field is optional. *)
Record ErrorHandlerConfig : Type := mkConfig {
  maxRetries : option Z;
  retryDelay : option Z;
  enableLogging : option bool;
  enableReporting : option bool;
  fallbackValues : option (gmap string JsValue)
}.

(** The object a strategy handler returns:
    [{ handled: boolean; shouldRetry?: boolean; result?: any }]. *)
Record HandleResult : Type := mkResult {
  handled : bool;
  shouldRetry : option bool;
  result : JsValue
}.

(** A thrown value: [catch (error)] may receive anything. *)
Inductive Thrown : Type :=
| ThrowError (e : JsError)
| ThrowValue (v : JsValue).

(** How a promise settles. *)
Inductive Outcome (T : Type) : Type :=
| Fulfilled (v : T)
| Rejected (t : Thrown).
Arguments Fulfilled {T} v.
Arguments Rejected {T} t.

(** An operation that fails on every invocation. *)
Definition always_fails {W T : Type} (operation : W -> Outcome T * W) : Prop :=
  forall w, exists t w', operation w = (Rejected t, w').

(** An operation without state of its own that rejects with [e] each time
    it is invoked. *)
Definition failing_with {T : Type} (e : JsError) : unit -> Outcome T * unit :=
  fun _ => (Rejected (ThrowError e), tt).

(** [enum ErrorStrategy]. *)
Inductive ErrorStrategy : Type :=
| RETRY | FALLBACK | IGNORE | ESCALATE | USER_ACTION.

(** [error.recoverable === false]; an error that is not a [PluginError]
    has no such field. *)
Definition unrecoverable (e : JsError) : bool :=
  match e with
  | Framework p => negb (recoverable p)
  | Foreign _ => false
  end.

(** An operation that always fails with an error the normaliser [norm]
    turns into one that is not marked unrecoverable. *)
Definition always_fails_recoverably {W T : Type} (norm : Thrown -> JsError)
    (operation : W -> Outcome T * W) : Prop :=
  forall w, exists t w',
    operation w = (Rejected t, w') /\ unrecoverable (norm t) = false.


(** The names of the properties of [Object.prototype], which every object
    written as a literal inherits. *)
Definition Object_prototype_keys : list string :=
  [ "constructor"; "hasOwnProperty"; "isPrototypeOf"; "propertyIsEnumerable";
    "toLocaleString"; "toString"; "valueOf"; "__proto__";
    "__defineGetter__"; "__defineSetter__";
    "__lookupGetter__"; "__lookupSetter__" ].

(** [key in Object.prototype]. *)
Definition inherits (key : string) : bool :=
  existsb (String.eqb key) Object_prototype_keys.

(** Values for the inherited properties, for the runs evaluated below:
    each is a built-in function, or the prototype object, and so truthy;
    it is stood for by an object that names the property. *)
Definition builtin (key : string) : JsValue := JObj [("builtin", JStr key)].

(** A normaliser that leaves an error object as it is, for the runs
    evaluated on operations that raise error objects. *)
Definition keep_error (t : Thrown) : JsError :=
  match t with
  | ThrowError e => e
  | ThrowValue _ => Foreign (mkForeignErr "Error" "Error" "" None)
  end.

(** [Math.pow(2, n)] for a count [n]. *)
Definition Math_pow2 (n : Z) : Z := 2 ^ n.

Section ErrorHandler.
Context {W : Type}.

(** [this.config]. *)
Variable config : ErrorHandlerConfig.

(** What the fallback table inherits: the value [Object.prototype] holds
    under each of its property names. *)
Variable inherited : string -> JsValue.

(** [this.getDefaultFallback], a helper of the class the strategy below
    calls. *)
Variable getDefaultFallback : JsError -> JsValue.

(** [handleRetryStrategy(error, currentCount)]. *)
Definition handleRetryStrategy (error : JsError) (currentCount : Z)
  : M W HandleResult :=
  let maxRetries := num_or (maxRetries config) 3 in
  if (currentCount <? maxRetries)%Z then
    bind (if num_truthy (retryDelay config)
          then delay (default 0 (retryDelay config) * Math_pow2 currentCount)
          else ret tt)
         (fun _ => ret (mkResult true (Some true) JUndefined))
  else
    ret (mkResult false (Some false) JUndefined).

(** [this.config.fallbackValues?.[fallbackKey]]: the table's own entry
    when it has one, else what the table, an object literal, inherits
    under that name, else [undefined]. *)
Definition fallbackLookup (fallbackKey : string) : JsValue :=
  match fallbackValues config with
  | Some table =>
      match table !! fallbackKey with
      | Some v => v
      | None =>
          if inherits fallbackKey then inherited fallbackKey else JUndefined
      end
  | None => JUndefined
  end.

(** [handleFallbackStrategy(error)]. *)
Definition handleFallbackStrategy (error : JsError) : HandleResult :=
  let fallbackKey := toLowerCase (constructor_name error) in
  let fallbackValue := fallbackLookup fallbackKey in
  mkResult true None (js_or fallbackValue (getDefaultFallback error)).

(** Modelled from the spec: the strategy resolver
    ([ErrorHandler.handleError], which the sources call but do not
    contain), section 4.2.  Under Retry an error whose [recoverable] is
    [false] is left unhandled at once (the tie-break rule); any other
    error goes to [handleRetryStrategy].  Fallback goes to
    [handleFallbackStrategy].  Ignore marks the error handled and yields
    no substitute; Escalate and UserAction leave it unhandled.  The
    statistics, the reporting hook and the tag for the presentation
    layer, which nothing below reads, are left out. *)
Definition handleError (error : JsError) (strategy : ErrorStrategy)
    (attempts : Z) : M W HandleResult :=
  match strategy with
  | RETRY =>
      if unrecoverable error
      then ret (mkResult false (Some false) JUndefined)
      else handleRetryStrategy error attempts
  | FALLBACK => ret (handleFallbackStrategy error)
  | IGNORE => ret (mkResult true None JUndefined)
  | ESCALATE | USER_ACTION => ret (mkResult false None JUndefined)
  end.

(** Modelled from the spec: the normalisation of a caught value into an
    error record, a step of the operation wrapper that the sources do
    not contain. *)
Variable normalizeError : Thrown -> JsError.

(** Modelled from the spec: the operation wrapper ([ErrorHandler.safeAsync],
    which the sources call but do not contain), section 4.3.  The
    operation is invoked; on success its result is returned; on failure
    the error is normalised and the resolver consulted with the number of
    attempts already made.  If the decision is to retry, the attempt count
    is incremented and the operation invoked again, up to [maxRetries + 1]
    attempts in total, [maxRetries] being 3 when the configuration leaves
    it out.  When the retries are exhausted, or the decision is not to
    retry, the caller's fallback value is returned if one was supplied;
    otherwise a handled error gives the resolver's substitute and an
    unhandled one is raised again.  [fuel] bounds the unfolding of the
    loop; [safeAsync] supplies enough of it. *)
Fixpoint safeAsync_loop (fuel : nat) (operation : W -> Outcome JsValue * W)
    (fallbackValue : option JsValue) (strategy : ErrorStrategy)
    (attempts : Z) : M W (option (Outcome JsValue)) :=
  match fuel with
  | O => ret None
  | S fuel' =>
      bind (invoke operation) (fun r =>
      match r with
      | Fulfilled v => ret (Some (Fulfilled v))
      | Rejected t =>
          let error := normalizeError t in
          bind (handleError error strategy attempts) (fun decision =>
          if default false (shouldRetry decision) then
            if (attempts <? default 3 (maxRetries config))%Z then
              safeAsync_loop fuel' operation fallbackValue strategy
                             (attempts + 1)
            else
              match fallbackValue with
              | Some v => ret (Some (Fulfilled v))
              | None => ret (Some (Rejected (ThrowError error)))
              end
          else
            match fallbackValue with
            | Some v => ret (Some (Fulfilled v))
            | None =>
                if handled decision
                then ret (Some (Fulfilled (result decision)))
                else ret (Some (Rejected (ThrowError error)))
            end)
      end)
  end.

Definition safeAsync (operation : W -> Outcome JsValue * W)
    (fallbackValue : option JsValue) (strategy : ErrorStrategy)
  : M W (option (Outcome JsValue)) :=
  safeAsync_loop (S (Z.to_nat (default 3 (maxRetries config))))
                 operation fallbackValue strategy 0.
End ErrorHandler.

(** The events one resolution under Retry adds to the trace when it
    decides to retry. *)
Definition retry_wait (config : ErrorHandlerConfig) (currentCount : Z)
  : list Event :=
  if num_truthy (retryDelay config)
  then [EDelay (default 0 (retryDelay config) * 2 ^ currentCount)]
  else [].

(** The exponential series [base * 2^attempt, base * 2^(attempt+1), ...],
    [n] terms of it. *)
Fixpoint backoff (base attempt : Z) (n : nat) : list Z :=
  match n with
  | O => []
  | S n' => base * 2 ^ attempt :: backoff base (attempt + 1) n'
  end.

Section RetryAsync.
Context {W T : Type}.

(** JavaScript's [String(v)] conversion and the stack the engine
    captures for an [Error] created inside [retryAsync]. *)
Variable String_ : JsValue -> string.
Variable stack_here : option string.

(** [error instanceof Error ? error : new Error(String(error))]. *)
Definition as_Error (t : Thrown) : JsError :=
  match t with
  | ThrowError e => e
  | ThrowValue v => Foreign (mkForeignErr "Error" "Error" (String_ v) stack_here)
  end.

(** The [for] loop of [retryAsync], entered at its condition with the
    current [attempt] and [lastError] ([None] while unassigned).  The
    statement after the loop, [throw lastError!], throws [undefined]
    when the loop body never ran.  [fuel] bounds the unfolding;
    [retryAsync] supplies enough of it. *)
Fixpoint retryAsync_loop (fuel : nat) (operation : W -> Outcome T * W)
    (maxRetries baseDelay attempt : Z) (lastError : option JsError)
  : M W (option (Outcome T)) :=
  match fuel with
  | O => ret None
  | S fuel' =>
      if (attempt <=? maxRetries)%Z then
        bind (invoke operation) (fun r =>
        match r with
        | Fulfilled v => ret (Some (Fulfilled v))
        | Rejected error =>
            let lastError := as_Error error in
            if (attempt =? maxRetries)%Z then
              ret (Some (Rejected (ThrowError lastError)))
            else
              let delay_ms := baseDelay * Math_pow2 attempt in
              bind (delay delay_ms) (fun _ =>
              retryAsync_loop fuel' operation maxRetries baseDelay
                              (attempt + 1) (Some lastError))
        end)
      else
        ret (Some (Rejected
               (match lastError with
                | Some e => ThrowError e
                | None => ThrowValue JUndefined
                end)))
  end.

(** [retryAsync(operation, maxRetries = 3, baseDelay = 1000)]. *)
Definition retryAsync (operation : W -> Outcome T * W)
    (maxRetries baseDelay : option Z) : M W (option (Outcome T)) :=
  let maxRetries := default 3 maxRetries in
  let baseDelay := default 1000 baseDelay in
  retryAsync_loop (S (Z.to_nat (maxRetries + 1))) operation
                  maxRetries baseDelay 0 None.
End RetryAsync.

End Handler.

(** ** The validation helper *)

Module Validation.
Import Errors.

(** What a rule returns: [true], [false], or a violation message. *)
Inductive RuleResult : Type :=
| RTrue
| RFalse
| RMessage (msg : string).

Section Validate.
(** The type of the validated value, and the value as the error record
    carries it. *)
Context {V : Type}.
Variable to_js : V -> JsValue.

Definition Rule : Type := V -> RuleResult.

(** The generic message used for a rule that returns [false]; its text
    is fixed by the helper, for a given field name. *)
Variable genericMessage : string -> string.

(** Modelled from the spec: the validation helper ([ErrorHandler.validate],
    which the sources call and test but do not contain).  The rules are
    evaluated in order; the first one that returns a message, or
    [false], raises a Validation error (built by the [ValidationError]
    constructor of the sources) carrying the field name and the value;
    when every rule passes the value is returned unchanged. *)
Fixpoint validate (value : V) (rules : list Rule) (fieldName : string)
    (now : string) (stk : option string) : PluginErr + V :=
  match rules with
  | [] => inr value
  | rule :: rest =>
      match rule value with
      | RTrue => validate value rest fieldName now stk
      | RFalse =>
          inl (ValidationError (genericMessage fieldName) (Some fieldName)
                               (to_js value) None now stk)
      | RMessage msg =>
          inl (ValidationError msg (Some fieldName) (to_js value) None now stk)
      end
  end.

(** The message a failing rule result stands for. *)
Definition violation (fieldName : string) (r : RuleResult) : option string :=
  match r with
  | RTrue => None
  | RFalse => Some (genericMessage fieldName)
  | RMessage msg => Some msg
  end.
End Validate.

(** The rule [v => v > 0 || "must be positive"] on numbers. *)
Definition must_be_positive : @Rule Z :=
  fun v => if (0 <? v)%Z then RTrue else RMessage "must be positive".

End Validation.

(** ** The plugin service and the component glue *)

Module Service.
Import Errors Async Handler.

(** [typeof v === 'object'], [typeof v === 'string'],
    [typeof v === 'number'] and [v === undefined]. *)
Definition typeof_object (v : JsValue) : bool :=
  match v with JNull | JArr _ | JObj _ => true | _ => false end.

Definition typeof_string (v : JsValue) : bool :=
  match v with JStr _ => true | _ => false end.

Definition typeof_number (v : JsValue) : bool :=
  match v with JNum _ => true | _ => false end.

Definition is_undefined (v : JsValue) : bool :=
  match v with JUndefined => true | _ => false end.

(** A value read where [ApiResponse] declares [status?: number]. *)
Definition as_number (v : JsValue) : option Z :=
  match v with JNum n => Some n | _ => None end.

(** [error instanceof PluginError] on a caught value. *)
Definition is_PluginError (t : Thrown) : bool :=
  match t with
  | ThrowError e => instanceof e CPluginError
  | ThrowValue _ => false
  end.

(** [error instanceof Error ? error.message : 'Unknown error']. *)
Definition message_or_unknown (t : Thrown) : string :=
  match t with
  | ThrowError e => message_of e
  | ThrowValue _ => "Unknown error"
  end.

(** [new Error(message)]. *)
Definition Error_ (message : string) (stk : option string) : JsError :=
  Foreign (mkForeignErr "Error" "Error" message stk).

(** The methods of [interface ApiService] that the service calls; each
    acts on the world [W] and settles like a promise. *)
Record ApiService (W : Type) : Type := mkApi {
  get : string -> W -> Outcome JsValue * W;
  post : string -> JsValue -> W -> Outcome JsValue * W;
  put : string -> JsValue -> W -> Outcome JsValue * W;
  delete : string -> W -> Outcome JsValue * W
}.
Arguments get {W} _ _ _.
Arguments post {W} _ _ _ _.
Arguments put {W} _ _ _ _.
Arguments delete {W} _ _ _.

(** The configuration the constructor of [PluginService] gives its error
    handler. *)
Definition PluginService_config : ErrorHandlerConfig :=
  mkConfig (Some 3) (Some 1000) (Some true) (Some true)
    (Some {[ "plugindata" := JNull;
             "emptyarray" := JArr [];
             "defaultobject" := JObj [] ]}).

(** [PluginService.validateData(data)].  [data] is not [undefined] or
    [null]: the parameter's type excludes them, and reading a property of
    either throws. *)
Definition validateData (data : JsValue) : bool :=
  if negb (truthy (js_get data "name"))
     || negb (typeof_string (js_get data "name"))
  then false
  else if negb (is_undefined (js_get data "value"))
          && negb (typeof_number (js_get data "value"))
  then false
  else true.

Definition DATA_URL : string := "/api/plugin-template/data".

Section PluginService.
Context {W : Type}.

(** [this.apiService], absent when the host gave none. *)
Variable apiService : option (ApiService W).

(** The clock reading and the stack of the error this call may build. *)
Variable now : string.
Variable stk : option string.

(** The body of the [try] block of the operation of [fetchData], given
    how [apiService.get] settled. *)
Definition fetchData_try (r : Outcome JsValue) : Outcome JsValue :=
  match r with
  | Rejected t => Rejected t
  | Fulfilled response =>
      if negb (truthy response) || negb (typeof_object response) then
        Rejected (ThrowError (Framework
          (NetworkError "Invalid response format from API"
             (as_number (js_get response "status")) (Some DATA_URL) None
             now stk)))
      else
        let data := js_get response "data" in
        if negb (truthy data) then
          Rejected (ThrowError (Framework
            (NetworkError "No data received from API"
               (as_number (js_get response "status")) (Some DATA_URL) None
               now stk)))
        else
          let _ := validateData data in
          Fulfilled data
  end.

(** The [catch] clause of the operation of [fetchData]. *)
Definition fetchData_catch (error : Thrown) : Thrown :=
  if is_PluginError error then error
  else
    ThrowError (Framework
      (NetworkError ("Failed to fetch plugin data: " ++ message_or_unknown error)
         None (Some DATA_URL) None now stk)).

(** The operation [fetchData] hands to [safeAsync]. *)
Definition fetchData_operation : W -> Outcome JsValue * W :=
  fun w =>
    match apiService with
    | None =>
        (Rejected (ThrowError (Framework
           (ServiceError "API service not available" "api"
              (Some "SERVICE_UNAVAILABLE")
              (JObj [("method", JStr "fetchData")]) (Some false) now stk))),
         w)
    | Some api =>
        let (r, w') := get api DATA_URL w in
        match fetchData_try r with
        | Fulfilled data => (Fulfilled data, w')
        | Rejected error => (Rejected (fetchData_catch error), w')
        end
    end.

(** The shape shared by [saveData], [updateData] and [deleteData]: no
    service throws [Error('API service not available')]; a failing call is
    caught and [Error(failure)] thrown in its place. *)
Definition guarded (call : ApiService W -> W -> Outcome JsValue * W)
    (failure : string) : W -> Outcome unit * W :=
  fun w =>
    match apiService with
    | None => (Rejected (ThrowError (Error_ "API service not available" stk)), w)
    | Some api =>
        let (r, w') := call api w in
        match r with
        | Fulfilled _ => (Fulfilled tt, w')
        | Rejected _ => (Rejected (ThrowError (Error_ failure stk)), w')
        end
    end.

(** [saveData(data)]. *)
Definition saveData (data : JsValue) : W -> Outcome unit * W :=
  guarded (fun api => post api DATA_URL data) "Failed to save plugin data".

(** [updateData(id, data)]. *)
Definition updateData (id : string) (data : JsValue) : W -> Outcome unit * W :=
  guarded (fun api => put api (DATA_URL ++ "/" ++ id) data)
          "Failed to update plugin data".

(** [deleteData(id)]. *)
Definition deleteData (id : string) : W -> Outcome unit * W :=
  guarded (fun api => delete api (DATA_URL ++ "/" ++ id))
          "Failed to delete plugin data".
End PluginService.

(** The part of the component state [handleComponentError] sets. *)
Record ErrorState : Type := mkErrorState {
  state_error : string;
  lastError : PluginErr;
  retryAvailable : bool
}.

(** [handleComponentError(error, context)] of the component, after
    [ErrorUtils.normalizeError(error)] gave [normalizedError];
    [as_value] is that error object as it sits inside [details]. *)
Definition handleComponentError (as_value : JsError -> JsValue)
    (normalizedError : JsError) (context : string)
    (now : string) (stk : option string) : ErrorState :=
  let pluginError :=
    PluginError ("Component error in " ++ context ++ ": "
                 ++ message_of normalizedError)
                (Some "COMPONENT_ERROR")
                (JObj [("context", JStr context);
                       ("originalError", as_value normalizedError)])
                (Some true) now stk in
  mkErrorState (getUserMessage (Framework pluginError)) pluginError true.

End Service.

(** ** Operations used to exercise the retry utility *)

Module Scenario.
Import Errors Async Handler.

(** Started in world [w], the operation fails on its first [j] invocations
    and then succeeds with [v], leaving the world [w']. *)
Fixpoint fails_then_succeeds {W T : Type} (operation : W -> Outcome T * W)
    (j : nat) (w : W) (v : T) (w' : W) : Prop :=
  match j with
  | O => operation w = (Fulfilled v, w')
  | S j' =>
      exists t w1,
        operation w = (Rejected t, w1) /\
        fails_then_succeeds operation j' w1 v w'
  end.

(** An operation that counts its invocations, rejects with [e] on the
    first [j] of them and fulfils with [v] afterwards. *)
Definition flaky {T : Type} (j : nat) (e : JsError) (v : T)
  : nat -> Outcome T * nat :=
  fun calls =>
    if (calls <? j)%nat then (Rejected (ThrowError e), S calls)
    else (Fulfilled v, S calls).

(** The same error object with another [message]. *)
Definition with_message (m : string) (e : JsError) : JsError :=
  match e with
  | Foreign f => Foreign (mkForeignErr (ctor f) (fname f) m (fstack f))
  | Framework p => Framework (set_message m p)
  end.

End Scenario.

(** * Properties *)

Local Open Scope list_scope.

(** ** The error taxonomy *)

Section TaxonomyFacts.
Import Errors.

Lemma of_opt_str_inj (a b : option string) :
  of_opt_str a = of_opt_str b -> a = b.
Proof. destruct a, b; simpl; congruence. Qed.

Lemma of_opt_num_inj (a b : option Z) :
  of_opt_num a = of_opt_num b -> a = b.
Proof. destruct a, b; simpl; congruence. Qed.

(** The class of a constructed record is the class of the constructor
    called. *)
Lemma class_of_construct (c : Construction) now stk :
  class_of (construct c now stk) =
  match c with
  | NewPluginError _ _ _ _ => CPluginError
  | NewServiceError _ _ _ _ _ => CServiceError
  | NewValidationError _ _ _ _ => CValidationError
  | NewNetworkError _ _ _ _ => CNetworkError
  end.
Proof. destruct c; reflexivity. Qed.

(** Every constructor sets [name] to the name of its class. *)
Lemma name_construct (c : Construction) now stk :
  name (construct c now stk) = class_name (class_of (construct c now stk)).
Proof. destruct c; reflexivity. Qed.

Lemma code_construct (c : Construction) now stk :
  code (construct c now stk) = default (default_code c) (passed_code c).
Proof. destruct c as [? [?|] ? ?|? ? [?|] ? ?|? ? ? [?|]|? ? ? [?|]]; reflexivity. Qed.

Lemma default_code_nonempty (c : Construction) : default_code c <> "".
Proof. destruct c; discriminate. Qed.

Lemma timestamp_construct (c : Construction) now stk :
  timestamp (construct c now stk) = now.
Proof. destruct c; reflexivity. Qed.

Lemma recoverable_construct (c : Construction) now stk :
  recoverable (construct c now stk) =
  match c with
  | NewValidationError _ _ _ _ => false
  | NewNetworkError _ _ _ _ => true
  | _ => default true (passed_recoverable c)
  end.
Proof. destruct c as [? ? ? [?|]|? ? ? ? [?|]|? ? ? ?|? ? ? ?]; reflexivity. Qed.

(** *** Construction invariant *)

(** C7, as stated, fails: a caller that passes the empty string as [code]
    gets a record whose code is empty, since a default parameter value
    only replaces [undefined]. *)
Lemma empty_code_is_kept :
  code (construct (NewPluginError "Operation failed" (Some "") JUndefined None)
                  "2024-05-01T10:00:00.000Z" None) = "".
Proof. reflexivity. Qed.

(** C7 (amended): a record built by a constructor carries the code the
    caller passed, or the constructor's default, which is not empty, when
    the caller passed none; so its code is non-empty unless the caller
    passed the empty string.  Its timestamp is the clock reading taken at
    construction.  Its [recoverable] flag is [false] only for a Validation
    record or when the caller passed [false]. *)
Theorem constructed_record_invariant (c : Construction) now stk :
  let e := construct c now stk in
  code e = default (default_code c) (passed_code c) /\
  default_code c <> "" /\
  (passed_code c <> Some "" -> code e <> "") /\
  timestamp e = now /\
  (recoverable e = false ->
   class_of e = CValidationError \/ passed_recoverable c = Some false).
Proof.
  cbv zeta. repeat split.
  - apply code_construct.
  - apply default_code_nonempty.
  - rewrite code_construct. intros Hne.
    pose proof (default_code_nonempty c) as Hd.
    destruct (passed_code c) as [s|]; simpl; congruence.
  - apply timestamp_construct.
  - rewrite recoverable_construct, class_of_construct.
    destruct c as [? ? ? [[]|]|? ? ? ? [[]|]|? ? ? ?|? ? ? ?]; simpl;
      intros; solve [discriminate | auto].
Qed.

Lemma constructed_record_invariant_witness :
  let c := NewServiceError "API service not available" "api"
             (Some "SERVICE_UNAVAILABLE")
             (JObj [("method", JStr "fetchData")]) (Some false) in
  let e := construct c "2024-05-01T10:00:00.000Z" None in
  code e = "SERVICE_UNAVAILABLE" /\ code e <> "" /\
  timestamp e = "2024-05-01T10:00:00.000Z" /\
  (class_of e = CValidationError \/ passed_recoverable c = Some false).
Proof.
  cbv zeta.
  destruct (constructed_record_invariant
              (NewServiceError "API service not available" "api"
                 (Some "SERVICE_UNAVAILABLE")
                 (JObj [("method", JStr "fetchData")]) (Some false))
              "2024-05-01T10:00:00.000Z" None)
    as (Hcode & _ & Hne & Hts & Hrec).
  split; [exact Hcode|]. split; [apply Hne; discriminate|].
  split; [exact Hts|]. apply Hrec. reflexivity.
Defined.

(** C10: a Network record has [recoverable = true], whatever the call that
    built it: the constructor has no [recoverable] parameter and passes
    [true] to its parent. *)
Theorem network_record_is_recoverable (c : Construction) now stk :
  instanceof (Framework (construct c now stk)) CNetworkError = true ->
  recoverable (construct c now stk) = true.
Proof.
  unfold instanceof. rewrite class_of_construct, recoverable_construct.
  destruct c; simpl; intros H; try discriminate H. reflexivity.
Qed.

Lemma network_record_is_recoverable_witness :
  recoverable (NetworkError "Request timeout" (Some 408)
                 (Some "/api/plugin-data") None
                 "2024-05-01T10:00:00.000Z" None) = true.
Proof.
  apply (network_record_is_recoverable
           (NewNetworkError "Request timeout" (Some 408)
              (Some "/api/plugin-data") None)).
  reflexivity.
Defined.

(** *** The structured dump *)

(** Every key of the dump reads back the field it was filled from. *)
Lemma toJSON_reads (e : PluginErr) :
  js_get (toJSON e) "name" = JStr (name e) /\
  js_get (toJSON e) "message" = JStr (message e) /\
  js_get (toJSON e) "code" = JStr (code e) /\
  js_get (toJSON e) "details" = details e /\
  js_get (toJSON e) "timestamp" = JStr (timestamp e) /\
  js_get (toJSON e) "recoverable" = JBool (recoverable e) /\
  js_get (toJSON e) "stack" = of_opt_str (stack e).
Proof. repeat split. Qed.

(** Two records with the same dump differ at most in what their subclass
    added. *)
Lemma toJSON_eq_upto_ext (e e' : PluginErr) :
  toJSON e = toJSON e' -> ext e = ext e' -> e = e'.
Proof.
  destruct e, e'; unfold toJSON; simpl.
  intros H Hx. injection H as -> -> -> -> -> -> Hs.
  apply of_opt_str_inj in Hs. now subst.
Qed.

Lemma class_name_inj (a b : ErrorClass) : class_name a = class_name b -> a = b.
Proof. destruct a, b; simpl; intros H; try reflexivity; discriminate H. Qed.

(** C5, as stated, fails: two Service records that differ only in
    [service] have the same dump, so the dump does not tell them apart. *)
Lemma service_is_not_dumped :
  let a := ServiceError "API service unavailable" "api" None JUndefined None
             "2024-05-01T10:00:00.000Z" None in
  let b := ServiceError "API service unavailable" "settings" None JUndefined None
             "2024-05-01T10:00:00.000Z" None in
  toJSON a = toJSON b /\ a <> b.
Proof. cbv zeta. split; [reflexivity | discriminate]. Qed.

(** C5 (amended): the dump of a record holds [name], [message], [code],
    [details], [timestamp], [recoverable] and [stack], each read back
    unchanged; for a Validation record [field] and [value], and for a
    Network record [status] and [url], are in the dump inside [details];
    and the dump of a record built by the PluginError, ValidationError or
    NetworkError constructor determines the whole record.  The [service]
    of a Service record is not in the dump. *)
Theorem toJSON_dump (c c' : Construction) now stk now' stk' :
  let e := construct c now stk in
  let e' := construct c' now' stk' in
  (js_get (toJSON e) "name" = JStr (name e) /\
   js_get (toJSON e) "message" = JStr (message e) /\
   js_get (toJSON e) "code" = JStr (code e) /\
   js_get (toJSON e) "details" = details e /\
   js_get (toJSON e) "timestamp" = JStr (timestamp e) /\
   js_get (toJSON e) "recoverable" = JBool (recoverable e) /\
   js_get (toJSON e) "stack" = of_opt_str (stack e)) /\
  match ext e with
  | ExtValidation field value =>
      js_get (js_get (toJSON e) "details") "field" = of_opt_str field /\
      js_get (js_get (toJSON e) "details") "value" = value
  | ExtService _ (SvcNetwork status url) =>
      js_get (js_get (toJSON e) "details") "status" = of_opt_num status /\
      js_get (js_get (toJSON e) "details") "url" = of_opt_str url
  | _ => True
  end /\
  (toJSON e = toJSON e' -> class_of e <> CServiceError -> e = e').
Proof.
  cbv zeta. split; [apply toJSON_reads|]. split.
  - destruct c; simpl; auto.
  - intros H Hcls. apply toJSON_eq_upto_ext; [exact H|].
    assert (Hn : class_of (construct c now stk) = class_of (construct c' now' stk')).
    { apply class_name_inj. rewrite <- !name_construct.
      pose proof (toJSON_reads (construct c now stk)) as (Ha & _).
      pose proof (toJSON_reads (construct c' now' stk')) as (Hb & _).
      rewrite H in Ha. congruence. }
    assert (Hd : details (construct c now stk) = details (construct c' now' stk')).
    { pose proof (toJSON_reads (construct c now stk)) as (_ & _ & _ & Ha & _).
      pose proof (toJSON_reads (construct c' now' stk')) as (_ & _ & _ & Hb & _).
      rewrite H in Ha. congruence. }
    rewrite !class_of_construct in Hn.
    rewrite class_of_construct in Hcls.
    destruct c, c'; try discriminate Hn; try (exfalso; apply Hcls; reflexivity);
      simpl in Hd |- *.
    + reflexivity.
    + injection Hd as Hf Hv. apply of_opt_str_inj in Hf. now subst.
    + injection Hd as Hst Hu.
      apply of_opt_num_inj in Hst. apply of_opt_str_inj in Hu. now subst.
Qed.

Lemma toJSON_dump_witness :
  construct (NewNetworkError "Request timeout" (Some 408)
               (Some "/api/plugin-data") None)
            "2024-05-01T10:00:00.000Z" None =
  construct (NewNetworkError "Request timeout" (Some 408)
               (Some "/api/plugin-data") (Some "NETWORK_ERROR"))
            "2024-05-01T10:00:00.000Z" None.
Proof.
  apply (toJSON_dump
           (NewNetworkError "Request timeout" (Some 408)
              (Some "/api/plugin-data") None)
           (NewNetworkError "Request timeout" (Some 408)
              (Some "/api/plugin-data") (Some "NETWORK_ERROR"))
           "2024-05-01T10:00:00.000Z" None "2024-05-01T10:00:00.000Z" None).
  - reflexivity.
  - discriminate.
Defined.

(** *** The user message *)

(** C8: the user message of a Network error is a fixed sentence; changing
    the error's [message], and nothing else, leaves it unchanged. *)
Theorem network_user_message_ignores_message (e : PluginErr) (m : string) :
  instanceof (Framework e) CNetworkError = true ->
  getUserMessage (Framework (set_message m e)) = getUserMessage (Framework e) /\
  getUserMessage (Framework e) = "Network connection issue. Please try again.".
Proof.
  unfold getUserMessage, instanceof, class_of. destruct e as [? ? ? ? ? ? ? x].
  simpl. destruct x as [|? [|? ?]|? ?]; simpl; intros H; try discriminate H.
  split; reflexivity.
Qed.

Lemma network_user_message_ignores_message_witness :
  getUserMessage
    (Framework (set_message "XMLHttpRequest failed with status 500"
                  (NetworkError "Request timeout" (Some 408)
                     (Some "/api/plugin-data") None
                     "2024-05-01T10:00:00.000Z" None))) =
  getUserMessage
    (Framework (NetworkError "Request timeout" (Some 408)
                  (Some "/api/plugin-data") None
                  "2024-05-01T10:00:00.000Z" None)).
Proof.
  apply (network_user_message_ignores_message
           (NetworkError "Request timeout" (Some 408)
              (Some "/api/plugin-data") None
              "2024-05-01T10:00:00.000Z" None)
           "XMLHttpRequest failed with status 500").
  reflexivity.
Defined.

End TaxonomyFacts.

(** ** The fallback strategy *)

Section FallbackFacts.
Import Errors Handler.


Lemma js_or_falsy (a b : JsValue) : truthy a = false -> js_or a b = b.
Proof. unfold js_or. now intros ->. Qed.


(** The values the claim on falsy substitutes lists are falsy. *)
Lemma falsy_values :
  Forall (fun v => truthy v = false) [JNull; JBool false; JNum 0; JStr ""].
Proof. repeat constructor. Qed.





(** C9: when the value configured at the error's key is falsy ([null],
    [false], [0], the empty string), the substitute is the default of
    [getDefaultFallback], not the configured value: the two are combined
    with [||]. *)
Theorem falsy_fallback_gives_default (config : ErrorHandlerConfig)
    (inherited : string -> JsValue)
    (getDefaultFallback : JsError -> JsValue) (error : JsError)
    (table : gmap string JsValue) (v : JsValue) :
  fallbackValues config = Some table ->
  table !! toLowerCase (constructor_name error) = Some v ->
  v = JNull \/ v = JBool false \/ v = JNum 0 \/ v = JStr "" ->
  result (handleFallbackStrategy config inherited getDefaultFallback error)
  = getDefaultFallback error.
Proof.
  intros Ht Hv Hfalsy.
  unfold handleFallbackStrategy, fallbackLookup; simpl.
  rewrite Ht, Hv. simpl. apply js_or_falsy.
  destruct Hfalsy as [-> | [-> | [-> | ->]]]; reflexivity.
Qed.

Lemma falsy_fallback_gives_default_witness :
  result (handleFallbackStrategy
            (mkConfig (Some 3) (Some 1000) None None
               (Some {[ "networkerror" := JNum 0 ]}))
            builtin (fun _ => JObj [])
            (Framework (NetworkError "Request timeout" (Some 408)
                          (Some "/api/plugin-data") None
                          "2024-05-01T10:00:00.000Z" None)))
  = JObj [].
Proof.
  apply (falsy_fallback_gives_default
           (mkConfig (Some 3) (Some 1000) None None
              (Some {[ "networkerror" := JNum 0 ]}))
           builtin (fun _ => JObj [])
           (Framework (NetworkError "Request timeout" (Some 408)
                         (Some "/api/plugin-data") None
                         "2024-05-01T10:00:00.000Z" None))
           {[ "networkerror" := JNum 0 ]} (JNum 0)).
  - reflexivity.
  - apply lookup_singleton_eq.
  - right; right; left; reflexivity.
Defined.

End FallbackFacts.

(** ** The retry strategy *)

Section RetryFacts.
Import Errors Async Handler.

Lemma invocations_app (a b : list Event) :
  invocations (a ++ b) = (invocations a + invocations b)%nat.
Proof. induction a as [|[|ms] a IH]; simpl; lia. Qed.

Lemma delays_app (a b : list Event) : delays (a ++ b) = delays a ++ delays b.
Proof. induction a as [|[|ms] a IH]; simpl; congruence. Qed.

Lemma waited_app (a b : list Event) : waited (a ++ b) = waited a + waited b.
Proof.
  unfold waited. rewrite delays_app.
  induction (delays a) as [|x l IH]; simpl; lia.
Qed.

Lemma failing_with_always_fails {T : Type} (e : JsError) :
  always_fails (@failing_with T e).
Proof. intros []. now exists (ThrowError e), tt. Qed.

(** What [handleRetryStrategy] returns and does: the error is not
    consulted. *)
Lemma handleRetryStrategy_run {W : Type} (config : ErrorHandlerConfig)
    (error : JsError) (currentCount : Z) (r : Run W) :
  handleRetryStrategy config error currentCount r =
  if (currentCount <? num_or (maxRetries config) 3)%Z then
    (mkResult true (Some true) JUndefined,
     mkRun (world r) (trace r ++ retry_wait config currentCount))
  else
    (mkResult false (Some false) JUndefined, r).
Proof.
  unfold handleRetryStrategy, retry_wait.
  destruct (currentCount <? _)%Z; [|reflexivity].
  destruct (num_truthy (retryDelay config)); [reflexivity|].
  destruct r; simpl. now rewrite app_nil_r.
Qed.

Lemma invocations_retry_wait config c : invocations (retry_wait config c) = O.
Proof. unfold retry_wait. now destruct (num_truthy _). Qed.

Lemma backoff_lookup (base attempt : Z) (n i : nat) (d : Z) :
  backoff base attempt n !! i = Some d -> d = base * 2 ^ (attempt + Z.of_nat i).
Proof.
  revert attempt i. induction n as [|n IH]; intros attempt i; simpl.
  - now rewrite lookup_nil.
  - destruct i as [|i]; simpl.
    + intros [= <-]. now rewrite Z.add_0_r.
    + intros H. apply IH in H. subst d. f_equal. f_equal. lia.
Qed.

(** The timer waits of any run of the loop of [retryAsync] form an
    initial part of the exponential series that starts at the current
    attempt. *)
Lemma retryAsync_loop_delays {W T : Type} String_ stack_here
    (operation : W -> Outcome T * W) (maxRetries baseDelay : Z) :
  forall (fuel : nat) (attempt : Z) lastError (r : Run W) res r',
    retryAsync_loop String_ stack_here fuel operation maxRetries baseDelay
                    attempt lastError r = (res, r') ->
    exists n, delays (trace r') = delays (trace r) ++ backoff baseDelay attempt n.
Proof.
  induction fuel as [|fuel IH]; intros attempt lastError r res r'; simpl.
  - intros [= _ <-]. exists O. simpl. now rewrite app_nil_r.
  - destruct (attempt <=? maxRetries)%Z.
    + unfold bind at 1. unfold invoke.
      destruct (operation (world r)) as [[v|t] w'].
      * intros [= _ <-]. exists O. simpl. rewrite delays_app. reflexivity.
      * destruct (attempt =? maxRetries)%Z.
        -- intros [= _ <-]. exists O. simpl. rewrite delays_app. reflexivity.
        -- unfold bind, delay, emit. simpl. intros Hrun.
           apply IH in Hrun as [n Hn]. exists (S n).
           rewrite Hn. simpl. rewrite !delays_app. simpl.
           rewrite app_nil_r, <- app_assoc. reflexivity.
    + intros [= _ <-]. exists O. simpl. now rewrite app_nil_r.
Qed.

(** [retryAsync] on an operation that always fails: it returns, rejecting
    with an error, after one invocation more than the retries left, the
    waits in between being the exponential series. *)
Lemma retryAsync_loop_always_fails {W T : Type} String_ stack_here
    (operation : W -> Outcome T * W) (maxRetries baseDelay : Z) :
  always_fails operation ->
  forall (fuel : nat) (attempt : Z) lastError (r : Run W),
    attempt <= maxRetries ->
    (Z.to_nat (maxRetries - attempt) < fuel)%nat ->
    exists e r',
      retryAsync_loop String_ stack_here fuel operation maxRetries baseDelay
                      attempt lastError r
      = (Some (Rejected (ThrowError e)), r') /\
      invocations (trace r') =
      (invocations (trace r) + S (Z.to_nat (maxRetries - attempt)))%nat /\
      delays (trace r') =
      delays (trace r) ++ backoff baseDelay attempt (Z.to_nat (maxRetries - attempt)).
Proof.
  intros Hfail fuel.
  induction fuel as [|fuel IH]; intros attempt lastError r Hle Hfuel; [lia|].
  destruct (Hfail (world r)) as (t & w' & Hop).
  simpl. destruct (Z.leb_spec attempt maxRetries) as [_|Hgt]; [|lia].
  unfold bind at 1. unfold invoke. rewrite Hop.
  destruct (Z.eqb_spec attempt maxRetries) as [->|Hne].
  - eexists _, _. split; [reflexivity|]. simpl.
    rewrite invocations_app, delays_app, Z.sub_diag. simpl.
    split; [lia | reflexivity].
  - unfold bind, delay, emit. simpl.
    destruct (IH (attempt + 1) (Some (as_Error String_ stack_here t))
                (mkRun w' ((trace r ++ [ECall])
                           ++ [EDelay (baseDelay * Math_pow2 attempt)])))
      as (e & r' & Hrun & Hinv & Hdel); [lia | lia |].
    exists e, r'. split; [exact Hrun|]. simpl in Hinv, Hdel.
    rewrite Hinv, Hdel, !invocations_app, !delays_app. simpl.
    replace (Z.to_nat (maxRetries - attempt))
      with (S (Z.to_nat (maxRetries - (attempt + 1)))) by lia.
    split; [lia|]. simpl. rewrite app_nil_r, <- app_assoc. reflexivity.
Qed.

Lemma retryAsync_always_fails {W T : Type} String_ stack_here
    (operation : W -> Outcome T * W) (maxRetries : Z) baseDelay (w : W) :
  always_fails operation ->
  0 <= maxRetries ->
  exists e r',
    retryAsync String_ stack_here operation (Some maxRetries) baseDelay (start w)
    = (Some (Rejected (ThrowError e)), r') /\
    invocations (trace r') = Z.to_nat (maxRetries + 1) /\
    delays (trace r') = backoff (default 1000 baseDelay) 0 (Z.to_nat maxRetries).
Proof.
  intros Hfail Hn. unfold retryAsync. simpl.
  destruct (retryAsync_loop_always_fails String_ stack_here operation
              maxRetries (default 1000 baseDelay) Hfail
              (S (Z.to_nat (maxRetries + 1))) 0 None (start w))
    as (e & r' & Hrun & Hinv & Hdel); [lia | lia |].
  exists e, r'. split; [exact Hrun|].
  rewrite Hinv, Hdel, Z.sub_0_r. simpl. split; [lia | reflexivity].
Qed.

(** The fuel [retryAsync] gives its loop is never used up. *)
Lemma retryAsync_loop_returns {W T : Type} String_ stack_here
    (operation : W -> Outcome T * W) (maxRetries baseDelay : Z) :
  forall (fuel : nat) (attempt : Z) lastError (r : Run W),
    (Z.to_nat (maxRetries + 1 - attempt) < fuel)%nat ->
    exists res r',
      retryAsync_loop String_ stack_here fuel operation maxRetries baseDelay
                      attempt lastError r = (Some res, r').
Proof.
  induction fuel as [|fuel IH]; intros attempt lastError r Hfuel; [lia|].
  simpl. destruct (Z.leb_spec attempt maxRetries) as [Hle|Hgt].
  - unfold bind at 1. unfold invoke.
    destruct (operation (world r)) as [[v|t] w']; [now eexists _, _|].
    destruct (Z.eqb_spec attempt maxRetries) as [->|Hne]; [now eexists _, _|].
    unfold bind, delay, emit. simpl. apply IH. lia.
  - now eexists _, _.
Qed.

Lemma retryAsync_returns {W T : Type} String_ stack_here
    (operation : W -> Outcome T * W) maxRetries baseDelay (r : Run W) :
  exists res r',
    retryAsync String_ stack_here operation maxRetries baseDelay r
    = (Some res, r').
Proof.
  unfold retryAsync. apply retryAsync_loop_returns. lia.
Qed.

(** The fuel [safeAsync] gives its loop is never used up. *)
Lemma safeAsync_loop_returns {W : Type} config inherited getDefaultFallback
    normalizeError (operation : W -> Outcome JsValue * W) fallbackValue
    strategy :
  forall (fuel : nat) (attempts : Z) (r : Run W),
    (Z.to_nat (default 3 (Handler.maxRetries config) - attempts)%Z < fuel)%nat ->
    exists res r',
      safeAsync_loop config inherited getDefaultFallback normalizeError fuel
                     operation fallbackValue strategy attempts r
      = (Some res, r').
Proof.
  induction fuel as [|fuel IH]; intros attempts r Hfuel; [lia|].
  simpl. unfold bind at 1. unfold invoke.
  destruct (operation (world r)) as [[v|t] w']; [now eexists _, _|].
  unfold bind.
  destruct (handleError config inherited getDefaultFallback
              (normalizeError t) strategy attempts
              (mkRun w' (trace r ++ [ECall]))) as [decision r1].
  destruct (default false (shouldRetry decision)).
  - destruct (Z.ltb_spec attempts (default 3 (Handler.maxRetries config)))
      as [Hlt|Hge].
    + apply IH. lia.
    + destruct fallbackValue; now eexists _, _.
  - destruct fallbackValue; [now eexists _, _|].
    destruct (handled decision); now eexists _, _.
Qed.

Lemma safeAsync_returns {W : Type} config inherited getDefaultFallback
    normalizeError (operation : W -> Outcome JsValue * W) fallbackValue
    strategy (r : Run W) :
  exists res r',
    safeAsync config inherited getDefaultFallback normalizeError operation
              fallbackValue strategy r = (Some res, r').
Proof.
  unfold safeAsync. apply safeAsync_loop_returns.
  rewrite Z.sub_0_r. lia.
Qed.

(** Under Retry, on an error that is not marked unrecoverable, the wrapper
    goes on exactly while the attempt count is below [maxRetries]: the
    handler's reading of a zero [maxRetries] as 3 is cut short by the
    bound of the wrapper. *)
Lemma retry_continues_below_maxRetries (config : ErrorHandlerConfig)
    (attempts : Z) :
  (attempts <? num_or (Handler.maxRetries config) 3)%Z
  && (attempts <? default 3 (Handler.maxRetries config))%Z
  = (attempts <? default 3 (Handler.maxRetries config))%Z.
Proof.
  unfold num_or. destruct (Handler.maxRetries config) as [n|]; simpl.
  - destruct (Z.eqb_spec n 0) as [->|_].
    + destruct (Z.ltb_spec attempts 0), (Z.ltb_spec attempts 3);
        try reflexivity; lia.
    + now destruct (attempts <? n)%Z.
  - now destruct (attempts <? 3)%Z.
Qed.

(** The wrapper under Retry, on an operation that keeps failing with
    errors that are not marked unrecoverable: it returns after one
    invocation more than the attempts that were left. *)
Lemma safeAsync_loop_retry_invocations {W : Type} config inherited
    getDefaultFallback normalizeError
    (operation : W -> Outcome JsValue * W) fallbackValue :
  always_fails_recoverably normalizeError operation ->
  forall (fuel : nat) (attempts : Z) (r : Run W),
    (Z.to_nat (default 3 (Handler.maxRetries config) - attempts)%Z < fuel)%nat ->
    exists res r',
      safeAsync_loop config inherited getDefaultFallback normalizeError fuel
                     operation fallbackValue RETRY attempts r
      = (Some res, r') /\
      invocations (trace r') =
      (invocations (trace r)
       + S (Z.to_nat (default 3 (Handler.maxRetries config) - attempts)%Z))%nat.
Proof.
  intros Hfail fuel.
  induction fuel as [|fuel IH]; intros attempts r Hfuel; [lia|].
  destruct (Hfail (world r)) as (t & w' & Hop & Hrec).
  simpl. unfold bind at 1. unfold invoke. rewrite Hop.
  unfold bind. rewrite Hrec, handleRetryStrategy_run.
  pose proof (retry_continues_below_maxRetries config attempts) as Hcont.
  destruct (Z.ltb_spec attempts (num_or (Handler.maxRetries config) 3))
    as [Hlt|Hge]; simpl in Hcont |- *.
  - destruct (Z.ltb_spec attempts (default 3 (Handler.maxRetries config)))
      as [Hlt'|Hge'].
    + destruct (IH (attempts + 1)
                  (mkRun w' ((trace r ++ [ECall]) ++ retry_wait config attempts)))
        as (res & r' & Hrun & Hinv); [lia|].
      exists res, r'. split; [exact Hrun|].
      rewrite Hinv. simpl. rewrite !invocations_app, invocations_retry_wait.
      simpl. lia.
    + destruct fallbackValue as [v|]; eexists _, _; (split; [reflexivity|]);
        simpl; rewrite !invocations_app, invocations_retry_wait; simpl; lia.
  - destruct (Z.ltb_spec attempts (default 3 (Handler.maxRetries config)))
      as [Hlt'|Hge']; [discriminate Hcont|].
    destruct fallbackValue as [v|]; eexists _, _; (split; [reflexivity|]);
      simpl; rewrite invocations_app; simpl; lia.
Qed.

(** The handler by itself reads a configured [maxRetries] of zero as 3:
    it answers retry at attempt counts 0, 1 and 2, and gives up at 3. *)
Lemma handler_reads_zero_maxRetries_as_three {W : Type} (error : JsError)
    retryDelay logging reporting table (count : Z) (r : Run W) :
  shouldRetry
    (fst (handleRetryStrategy
            (mkConfig (Some 0) retryDelay logging reporting table)
            error count r))
  = Some (count <? 3)%Z.
Proof.
  rewrite handleRetryStrategy_run. simpl. now destruct (count <? 3)%Z.
Qed.

(** With [maxRetries = n >= 0] the wrapper under Retry invokes such an
    operation [n + 1] times. *)
Lemma safeAsync_retry_invocations {W : Type} config inherited
    getDefaultFallback normalizeError
    (operation : W -> Outcome JsValue * W) fallbackValue (w : W) (n : Z) :
  Handler.maxRetries config = Some n ->
  0 <= n ->
  always_fails_recoverably normalizeError operation ->
  exists res r',
    safeAsync config inherited getDefaultFallback normalizeError operation
              fallbackValue RETRY (start w) = (Some res, r') /\
    invocations (trace r') = Z.to_nat (n + 1).
Proof.
  intros Hmax Hn Hfail. unfold safeAsync.
  destruct (safeAsync_loop_retry_invocations config inherited
              getDefaultFallback normalizeError operation fallbackValue Hfail
              (S (Z.to_nat (default 3 (Handler.maxRetries config)))) 0 (start w))
    as (res & r' & Hrun & Hinv); [rewrite Z.sub_0_r; lia|].
  exists res, r'. split; [exact Hrun|].
  rewrite Hinv, Hmax. simpl. rewrite Z.sub_0_r. lia.
Qed.

(** *** Validation errors under Retry *)

(** C1: a Validation error, as the [ValidationError] constructor builds
    it, has [recoverable = false]; under the Retry strategy the resolver
    therefore leaves it unhandled at once, at any attempt count and
    without waiting, and the wrapper, run on an operation whose first
    invocation raises it, invokes the operation exactly once and then
    returns the caller's fallback value or raises the error again. *)
Theorem validation_error_is_never_retried {W : Type}
    (config : ErrorHandlerConfig) inherited getDefaultFallback normalizeError
    (operation : W -> Outcome JsValue * W) fallbackValue
    message field value code now stk (attempts : Z) (r : Run W) (w w' : W) :
  let p := ValidationError message field value code now stk in
  operation w = (Rejected (ThrowError (Framework p)), w') ->
  normalizeError (ThrowError (Framework p)) = Framework p ->
  recoverable p = false /\
  handleError config inherited getDefaultFallback (Framework p) RETRY attempts r
  = (mkResult false (Some false) JUndefined, r) /\
  safeAsync config inherited getDefaultFallback normalizeError operation
            fallbackValue RETRY (start w)
  = (Some (match fallbackValue with
           | Some v => Fulfilled v
           | None => Rejected (ThrowError (Framework p))
           end),
     mkRun w' [ECall]).
Proof.
  cbv zeta. intros Hop Hnorm. split; [reflexivity|]. split; [reflexivity|].
  unfold safeAsync. simpl. unfold bind, invoke. simpl.
  rewrite Hop, Hnorm. simpl. now destruct fallbackValue.
Qed.

Lemma validation_error_is_never_retried_witness :
  let p := ValidationError "Invalid email format" (Some "email")
             (JStr "user@invalid") None "2024-05-01T10:00:00.000Z" None in
  safeAsync (mkConfig (Some 3) (Some 1000) None None None) builtin (fun _ => JNull) keep_error
            (failing_with (Framework p)) None RETRY (start tt)
  = (Some (Rejected (ThrowError (Framework p))), mkRun tt [ECall]).
Proof.
  cbv zeta.
  refine (proj2 (proj2 (validation_error_is_never_retried
            (mkConfig (Some 3) (Some 1000) None None None) builtin (fun _ => JNull) keep_error
            (failing_with
               (Framework
                  (ValidationError "Invalid email format" (Some "email")
                     (JStr "user@invalid") None
                     "2024-05-01T10:00:00.000Z" None)))
            None "Invalid email format" (Some "email") (JStr "user@invalid")
            None "2024-05-01T10:00:00.000Z" None 0 (start tt) tt tt _ _))).
  - reflexivity.
  - reflexivity.
Defined.

(** *** Backoff *)

(** C2: when the resolver under Retry is consulted with an attempt count
    below [maxRetries], it decides to retry after waiting
    [retryDelay * 2^attempts] milliseconds (the timer is started unless
    that delay is zero); this is the wait before retry number
    [attempts + 1].  In a run of [retryAsync] the wait before the [k]-th
    retry is [baseDelay * 2^(k-1)]. *)
Theorem backoff_delay {W T : Type} (config : ErrorHandlerConfig)
    (error : JsError) (n d attempts : Z) (r : Run W)
    String_ stack_here (operation : W -> Outcome T * W)
    maxRetries baseDelay (w : W) (k : nat) (dk : Z) :
  Handler.maxRetries config = Some n ->
  retryDelay config = Some d ->
  0 <= attempts < n ->
  (1 <= k)%nat ->
  delays (trace (snd (retryAsync String_ stack_here operation maxRetries
                        baseDelay (start w)))) !! (k - 1)%nat = Some dk ->
  (let (decision, r') := handleRetryStrategy config error attempts r in
   shouldRetry decision = Some true /\
   delays (trace r') =
   delays (trace r) ++ (if (d =? 0)%Z then [] else [d * 2 ^ attempts]) /\
   waited (trace r') = waited (trace r) + d * 2 ^ attempts) /\
  dk = default 1000 baseDelay * 2 ^ (Z.of_nat k - 1).
Proof.
  intros Hmax Hdelay Hatt Hk Hdk. split.
  - rewrite handleRetryStrategy_run.
    unfold num_or, retry_wait, num_truthy. rewrite Hmax, Hdelay.
    destruct (Z.eqb_spec n 0) as [->|_]; [lia|].
    destruct (Z.ltb_spec attempts n) as [_|?]; [|lia].
    simpl. split; [reflexivity|].
    rewrite delays_app, waited_app.
    destruct (Z.eqb_spec d 0) as [->|_]; simpl.
    + rewrite app_nil_r. unfold waited. simpl. split; [reflexivity | lia].
    + unfold waited. simpl. split; [reflexivity | lia].
  - destruct (retryAsync String_ stack_here operation maxRetries baseDelay
                (start w)) as [res r'] eqn:Hrun.
    unfold retryAsync in Hrun.
    apply retryAsync_loop_delays in Hrun as [m Hm].
    simpl in Hdk, Hm. rewrite Hm in Hdk.
    apply backoff_lookup in Hdk. subst dk. f_equal. f_equal. lia.
Qed.

Lemma backoff_delay_witness :
  let config := mkConfig (Some 3) (Some 1000) None None None in
  let error := Framework (NetworkError "Request timeout" (Some 408)
                            (Some "/api/plugin-data") None
                            "2024-05-01T10:00:00.000Z" None) in
  delays (trace (snd (handleRetryStrategy config error 2 (start tt))))
  = [4000] /\
  delays (trace (snd (retryAsync (T := JsValue) (fun _ => "") None
                        (failing_with error) (Some 3) (Some 1000)
                        (start tt)))) = [1000; 2000; 4000].
Proof.
  cbv zeta. split; [|reflexivity].
  pose proof (backoff_delay (T := JsValue)
                (mkConfig (Some 3) (Some 1000) None None None)
                (Framework (NetworkError "Request timeout" (Some 408)
                              (Some "/api/plugin-data") None
                              "2024-05-01T10:00:00.000Z" None))
                3 1000 2 (start tt) (fun _ => "") None
                (failing_with
                   (Framework (NetworkError "Request timeout" (Some 408)
                                 (Some "/api/plugin-data") None
                                 "2024-05-01T10:00:00.000Z" None)))
                (Some 3) (Some 1000) tt 3%nat 4000
                eq_refl eq_refl ltac:(lia) ltac:(lia) eq_refl) as [H _].
  destruct (handleRetryStrategy _ _ _ _) as [decision r'].
  destruct H as (_ & H & _). exact H.
Defined.

(** *** Number of invocations *)



End RetryFacts.

(** ** The validation helper *)

Section ValidationFacts.
Import Errors Validation.

(** When every rule passes, the value is returned unchanged. *)
Lemma validate_passes {V : Type} (to_js : V -> JsValue) genericMessage
    (value : V) (rules : list Rule) fieldName now stk :
  Forall (fun rule => rule value = RTrue) rules ->
  validate to_js genericMessage value rules fieldName now stk = inr value.
Proof.
  induction 1 as [|rule rules Hrule _ IH]; simpl; [reflexivity|].
  now rewrite Hrule.
Qed.

(** C6: [validate] evaluates the rules in order, and at the first rule
    that fails (every rule before it having passed) raises a Validation
    error with that rule's message, or the generic message when the rule
    returned [false], carrying the field name and the offending value,
    with [recoverable = false]. *)
Theorem validate_raises_at_first_failure {V : Type} (to_js : V -> JsValue)
    genericMessage (value : V) (passed : list Rule) (rule : Rule)
    (rest : list Rule) (fieldName msg : string) now stk :
  Forall (fun rule => rule value = RTrue) passed ->
  violation genericMessage fieldName (rule value) = Some msg ->
  exists err,
    validate to_js genericMessage value (passed ++ rule :: rest)
             fieldName now stk = inl err /\
    err = ValidationError msg (Some fieldName) (to_js value) None now stk /\
    instanceof (Framework err) CValidationError = true /\
    message err = msg /\
    ext err = ExtValidation (Some fieldName) (to_js value) /\
    recoverable err = false.
Proof.
  intros Hpassed Hrule.
  exists (ValidationError msg (Some fieldName) (to_js value) None now stk).
  split; [|repeat split].
  induction Hpassed as [|first passed Hfirst _ IH]; simpl.
  - destruct (rule value); simpl in Hrule; congruence.
  - now rewrite Hfirst.
Qed.

Lemma validate_raises_at_first_failure_witness :
  exists err,
    validate JNum (fun field => "Validation failed for " ++ field)%string
             (-5) [must_be_positive] "age" "2024-05-01T10:00:00.000Z" None
    = inl err /\
    ext err = ExtValidation (Some "age") (JNum (-5)) /\
    message err = "must be positive" /\
    recoverable err = false.
Proof.
  destruct (validate_raises_at_first_failure JNum
              (fun field => "Validation failed for " ++ field)%string
              (-5) [] must_be_positive [] "age" "must be positive"
              "2024-05-01T10:00:00.000Z" None)
    as (err & Hrun & _ & _ & Hmsg & Hext & Hrec).
  - constructor.
  - reflexivity.
  - exists err. auto.
Defined.

End ValidationFacts.

(** * Further properties of the code *)

(** ** The retry utility *)

Section RetryAsyncFacts.
Import Errors Async Handler Scenario Service.

Lemma retryAsync_loop_bound {W T : Type} String_ stack_here
    (operation : W -> Outcome T * W) (maxRetries baseDelay : Z) :
  forall (fuel : nat) (attempt : Z) lastError (r : Run W) res r',
    retryAsync_loop String_ stack_here fuel operation maxRetries baseDelay
                    attempt lastError r = (res, r') ->
    (invocations (trace r')
     <= invocations (trace r) + Z.to_nat (maxRetries + 1 - attempt)%Z)%nat.
Proof.
  induction fuel as [|fuel IH]; intros attempt lastError r res r'; simpl.
  - intros [= _ <-]. lia.
  - destruct (Z.leb_spec attempt maxRetries) as [Hle|Hgt].
    + unfold bind at 1. unfold invoke.
      destruct (operation (world r)) as [[v|t] w'].
      * intros [= _ <-]. simpl. rewrite invocations_app. simpl. lia.
      * destruct (Z.eqb_spec attempt maxRetries) as [->|Hne].
        -- intros [= _ <-]. simpl. rewrite invocations_app. simpl. lia.
        -- unfold bind, delay, emit. simpl. intros Hrun.
           apply IH in Hrun. simpl in Hrun.
           rewrite !invocations_app in Hrun. simpl in Hrun. lia.
    + intros [= _ <-]. lia.
Qed.

(** [retryAsync] never invokes the operation more than [maxRetries + 1]
    times, whatever the operation does; with a negative [maxRetries] that
    is never. *)
Theorem retryAsync_invocation_bound {W T : Type} String_ stack_here
    (operation : W -> Outcome T * W) maxRetries baseDelay (w : W) :
  (invocations
     (trace (snd (retryAsync String_ stack_here operation maxRetries
                    baseDelay (start w))))
   <= Z.to_nat (default 3 maxRetries + 1)%Z)%nat.
Proof.
  destruct (retryAsync String_ stack_here operation maxRetries baseDelay
              (start w)) as [res r'] eqn:Hrun.
  unfold retryAsync in Hrun. apply retryAsync_loop_bound in Hrun.
  simpl in *. lia.
Qed.

Lemma retryAsync_loop_recovers {W T : Type} String_ stack_here
    (operation : W -> Outcome T * W) (maxRetries baseDelay : Z) (v : T) (w' : W) :
  forall (j fuel : nat) (attempt : Z) lastError (w : W) (tr : list Event),
    fails_then_succeeds operation j w v w' ->
    attempt + Z.of_nat j <= maxRetries ->
    (j < fuel)%nat ->
    exists tr',
      retryAsync_loop String_ stack_here fuel operation maxRetries baseDelay
                      attempt lastError (mkRun w tr)
      = (Some (Fulfilled v), mkRun w' tr') /\
      invocations tr' = (invocations tr + S j)%nat /\
      delays tr' = delays tr ++ backoff baseDelay attempt j.
Proof.
  induction j as [|j IH]; intros fuel attempt lastError w tr Hop Hle Hfuel;
    (destruct fuel as [|fuel]; [lia|]); simpl in Hop |- *.
  - destruct (Z.leb_spec attempt maxRetries) as [_|?]; [|lia].
    unfold bind, invoke. simpl. rewrite Hop.
    eexists. split; [reflexivity|].
    rewrite invocations_app, delays_app. simpl.
    split; [lia | reflexivity].
  - destruct Hop as (t & w1 & Hop & Hrest).
    destruct (Z.leb_spec attempt maxRetries) as [_|?]; [|lia].
    unfold bind at 1. unfold invoke. simpl. rewrite Hop.
    destruct (Z.eqb_spec attempt maxRetries) as [?|_]; [lia|].
    unfold bind, delay, emit. simpl.
    destruct (IH fuel (attempt + 1) (Some (as_Error String_ stack_here t)) w1
                ((tr ++ [ECall]) ++ [EDelay (baseDelay * Math_pow2 attempt)])
                Hrest) as (tr' & Hrun & Hinv & Hdel); [lia | lia |].
    exists tr'. split; [exact Hrun|].
    rewrite Hinv, Hdel, !invocations_app, !delays_app. simpl.
    split; [lia|]. rewrite app_nil_r, <- app_assoc. reflexivity.
Qed.

(** When the operation fails on its first [j] invocations and then
    succeeds, and [j] is at most [maxRetries], [retryAsync] fulfils with the
    operation's value after exactly [j + 1] invocations, having waited
    [baseDelay * 2^0, ..., baseDelay * 2^(j-1)] in between. *)
Theorem retryAsync_recovers {W T : Type} String_ stack_here
    (operation : W -> Outcome T * W) maxRetries baseDelay
    (j : nat) (w : W) (v : T) (w' : W) :
  fails_then_succeeds operation j w v w' ->
  Z.of_nat j <= default 3 maxRetries ->
  exists tr',
    retryAsync String_ stack_here operation maxRetries baseDelay (start w)
    = (Some (Fulfilled v), mkRun w' tr') /\
    invocations tr' = S j /\
    delays tr' = backoff (default 1000 baseDelay) 0 j.
Proof.
  intros Hop Hj. unfold retryAsync, start.
  destruct (retryAsync_loop_recovers String_ stack_here operation
              (default 3 maxRetries) (default 1000 baseDelay) v w' j
              (S (Z.to_nat (default 3 maxRetries + 1))) 0 None w [] Hop)
    as (tr' & Hrun & Hinv & Hdel); [lia | lia |].
  exists tr'. auto.
Qed.

Lemma retryAsync_recovers_witness :
  exists tr',
    retryAsync (fun _ => "") None
               (flaky 2 (Error_ "First failure" None) (JStr "success"))
               (Some 3) (Some 100) (start O)
    = (Some (Fulfilled (JStr "success")), mkRun 3%nat tr') /\
    invocations tr' = 3%nat /\
    delays tr' = [100; 200].
Proof.
  apply (retryAsync_recovers (fun _ => "") None
           (flaky 2 (Error_ "First failure" None) (JStr "success"))
           (Some 3) (Some 100) 2 O (JStr "success") 3%nat).
  - simpl. eexists _, _. split; [reflexivity|].
    eexists _, _. split; reflexivity.
  - simpl. lia.
Defined.

(** With a negative [maxRetries] the loop body never runs: the operation
    is not invoked, nothing is awaited, and the promise rejects with
    [undefined], the value of the unassigned [lastError]. *)
Theorem retryAsync_negative_maxRetries {W T : Type} String_ stack_here
    (operation : W -> Outcome T * W) (n : Z) baseDelay (r : Run W) :
  n < 0 ->
  retryAsync String_ stack_here operation (Some n) baseDelay r
  = (Some (Rejected (ThrowValue JUndefined)), r).
Proof.
  intros Hn. unfold retryAsync. simpl.
  destruct (Z.leb_spec 0 n) as [?|_]; [lia | reflexivity].
Qed.

Lemma retryAsync_negative_maxRetries_witness :
  retryAsync (T := JsValue) (fun _ => "") None
             (failing_with (Error_ "Always fails" None))
             (Some (-1)) None (start tt)
  = (Some (Rejected (ThrowValue JUndefined)), start tt).
Proof.
  apply (retryAsync_negative_maxRetries (T := JsValue) (fun _ => "") None
           (failing_with (Error_ "Always fails" None)) (-1) None (start tt)).
  lia.
Defined.

Lemma backoff_sum (base attempt : Z) (n : nat) :
  0 <= attempt ->
  foldr Z.add 0 (backoff base attempt n)
  = base * 2 ^ attempt * (2 ^ Z.of_nat n - 1).
Proof.
  revert attempt. induction n as [|n IH]; intros attempt Ha.
  - simpl. lia.
  - change (backoff base attempt (S n))
      with (base * 2 ^ attempt :: backoff base (attempt + 1) n).
    simpl foldr. rewrite IH by lia.
    rewrite Nat2Z.inj_succ, !Z.pow_succ_r by lia.
    replace (attempt + 1) with (Z.succ attempt) by lia.
    rewrite Z.pow_succ_r by lia. ring.
Qed.

(** On an operation that always fails, [retryAsync] with [maxRetries = n]
    spends [baseDelay * (2^n - 1)] milliseconds waiting in total before it
    rejects. *)
Theorem retryAsync_total_wait {W T : Type} String_ stack_here
    (operation : W -> Outcome T * W) (n : Z) baseDelay (w : W) :
  always_fails operation ->
  0 <= n ->
  exists e r',
    retryAsync String_ stack_here operation (Some n) baseDelay (start w)
    = (Some (Rejected (ThrowError e)), r') /\
    waited (trace r') = default 1000 baseDelay * (2 ^ n - 1).
Proof.
  intros Hfail Hn.
  destruct (retryAsync_always_fails String_ stack_here operation n baseDelay
              w Hfail Hn) as (e & r' & Hrun & _ & Hdel).
  exists e, r'. split; [exact Hrun|].
  unfold waited. rewrite Hdel, backoff_sum by lia.
  rewrite Z2Nat.id by lia. simpl (2 ^ 0). ring.
Qed.

Lemma retryAsync_total_wait_witness :
  exists e r',
    retryAsync (T := JsValue) (fun _ => "") None
               (failing_with (Error_ "Always fails" None))
               (Some 3) (Some 1000) (start tt)
    = (Some (Rejected (ThrowError e)), r') /\
    waited (trace r') = 7000.
Proof.
  apply (retryAsync_total_wait (T := JsValue) (fun _ => "") None
           (failing_with (Error_ "Always fails" None)) 3 (Some 1000) tt).
  - apply failing_with_always_fails.
  - lia.
Defined.

Lemma retryAsync_loop_rejection {W T : Type} String_ stack_here
    (operation : W -> Outcome T * W) (maxRetries baseDelay : Z) :
  forall (fuel : nat) (attempt : Z) lastError (r : Run W) x r',
    attempt <= maxRetries ->
    retryAsync_loop String_ stack_here fuel operation maxRetries baseDelay
                    attempt lastError r = (Some (Rejected x), r') ->
    invocations (trace r') =
    (invocations (trace r) + S (Z.to_nat (maxRetries - attempt)))%nat /\
    delays (trace r') =
    delays (trace r) ++ backoff baseDelay attempt (Z.to_nat (maxRetries - attempt)) /\
    exists t, x = ThrowError (as_Error String_ stack_here t).
Proof.
  induction fuel as [|fuel IH]; intros attempt lastError r x r' Hle; simpl;
    [discriminate|].
  destruct (Z.leb_spec attempt maxRetries) as [_|?]; [|lia].
  unfold bind at 1. unfold invoke.
  destruct (operation (world r)) as [[v|t] w']; [discriminate|].
  destruct (Z.eqb_spec attempt maxRetries) as [->|Hne].
  - intros [= <- <-]. simpl.
    rewrite invocations_app, delays_app, Z.sub_diag. simpl.
    split; [lia|]. split; [reflexivity|]. now exists t.
  - unfold bind, delay, emit. simpl. intros Hrun.
    apply IH in Hrun as (Hinv & Hdel & Hx); [|lia].
    simpl in Hinv, Hdel.
    rewrite Hinv, Hdel, !invocations_app, !delays_app. simpl.
    replace (Z.to_nat (maxRetries - attempt))
      with (S (Z.to_nat (maxRetries - (attempt + 1)))) by lia.
    split; [lia|]. split; [|exact Hx].
    simpl. rewrite app_nil_r, <- app_assoc. reflexivity.
Qed.

(** [retryAsync] with [maxRetries = n >= 0] gives up only when every
    attempt is used: if it rejects, the operation was invoked exactly
    [n + 1] times with the [n] waits of the exponential series in between,
    and the rejection is an [Error] object (a thrown value that is not one
    is wrapped). *)
Theorem retryAsync_rejects_when_exhausted {W T : Type} String_ stack_here
    (operation : W -> Outcome T * W) (n : Z) baseDelay (w : W) x r' :
  0 <= n ->
  retryAsync String_ stack_here operation (Some n) baseDelay (start w)
  = (Some (Rejected x), r') ->
  invocations (trace r') = Z.to_nat (n + 1) /\
  delays (trace r') = backoff (default 1000 baseDelay) 0 (Z.to_nat n) /\
  exists t, x = ThrowError (as_Error String_ stack_here t).
Proof.
  intros Hn Hrun. unfold retryAsync in Hrun. cbv zeta in Hrun.
  apply retryAsync_loop_rejection in Hrun as (Hinv & Hdel & Hx);
    [|simpl; lia].
  simpl in Hinv, Hdel. rewrite Z.sub_0_r in Hinv, Hdel.
  split; [lia|]. split; [exact Hdel | exact Hx].
Qed.

Lemma retryAsync_rejects_when_exhausted_witness :
  invocations
    (trace (snd (retryAsync (T := JsValue) (fun _ => "") None
                   (fun _ : unit => (Rejected (ThrowValue (JStr "boom")), tt))
                   (Some 2) (Some 1000) (start tt)))) = 3%nat.
Proof.
  refine (proj1 (retryAsync_rejects_when_exhausted (T := JsValue)
                   (fun _ => "") None
                   (fun _ : unit => (Rejected (ThrowValue (JStr "boom")), tt))
                   2 (Some 1000) tt
                   (ThrowError (Foreign (mkForeignErr "Error" "Error" "" None)))
                   _ _ _)).
  - lia.
  - reflexivity.
Defined.

End RetryAsyncFacts.

(** ** The strategy handlers *)

Section StrategyFacts.
Import Errors Async Handler Scenario Service.

(** The decision of the resolver under Retry is monotone in the attempt
    count, whatever the errors and the runs: once it gives up at a count it
    gives up at every later one.  Giving up never waits: the run is left
    as it was. *)
Theorem retry_gives_up_for_good {W : Type} (config : ErrorHandlerConfig)
    (error error' : JsError) (count count' : Z) (r r' : Run W) :
  count <= count' ->
  shouldRetry (fst (handleRetryStrategy config error count r)) = Some false ->
  handleRetryStrategy config error' count' r'
  = (mkResult false (Some false) JUndefined, r').
Proof.
  intros Hle. rewrite !handleRetryStrategy_run.
  destruct (Z.ltb_spec count (num_or (Handler.maxRetries config) 3))
    as [Hlt|Hge]; simpl; [discriminate|]. intros _.
  destruct (Z.ltb_spec count' (num_or (Handler.maxRetries config) 3))
    as [Hlt'|_]; [lia | reflexivity].
Qed.

Lemma retry_gives_up_for_good_witness :
  handleRetryStrategy (W := unit) PluginService_config
    (Error_ "Second failure" None) 5 (start tt)
  = (mkResult false (Some false) JUndefined, start tt).
Proof.
  apply (retry_gives_up_for_good PluginService_config
           (Error_ "First failure" None) (Error_ "Second failure" None)
           3 5 (start tt) (start tt)).
  - lia.
  - reflexivity.
Defined.

Lemma PluginService_table_lookup (inherited : string -> JsValue)
    (key : string) :
  key <> "plugindata" -> key <> "emptyarray" -> key <> "defaultobject" ->
  inherits key = false ->
  fallbackLookup PluginService_config inherited key = JUndefined.
Proof.
  intros H1 H2 H3 Hinh. unfold fallbackLookup, PluginService_config. simpl.
  rewrite !lookup_insert_ne by congruence.
  rewrite lookup_singleton_ne by congruence. now rewrite Hinh.
Qed.

(** The fallback values [PluginService] configures ([plugindata],
    [emptyarray], [defaultobject]) are never the substitute for an error of
    the framework or for a built-in [Error]: none of these keys is the
    lower-cased name of such an error's class, so the Fallback strategy
    substitutes the default of [getDefaultFallback]. *)
Theorem PluginService_fallbacks_unused (inherited : string -> JsValue)
    (getDefaultFallback : JsError -> JsValue) (error : JsError) :
  (exists p, error = Framework p) \/ (exists m s, error = Error_ m s) ->
  result (handleFallbackStrategy PluginService_config inherited
            getDefaultFallback error)
  = getDefaultFallback error.
Proof.
  intros Herr. unfold handleFallbackStrategy. simpl.
  rewrite PluginService_table_lookup; [reflexivity| | | |];
    destruct Herr as [[p ->]|(m & s & ->)]; simpl;
    try (destruct (class_of p)); first [discriminate | reflexivity].
Qed.

Lemma PluginService_fallbacks_unused_witness :
  result (handleFallbackStrategy PluginService_config builtin (fun _ => JObj [])
            (Framework (NetworkError "No data received from API" (Some 204)
                          (Some DATA_URL) None
                          "2024-05-01T10:00:00.000Z" None)))
  = JObj [].
Proof.
  apply (PluginService_fallbacks_unused builtin (fun _ => JObj [])
           (Framework (NetworkError "No data received from API" (Some 204)
                         (Some DATA_URL) None
                         "2024-05-01T10:00:00.000Z" None))).
  left. eexists. reflexivity.
Defined.

End StrategyFacts.

(** ** The user message and the records *)

Section MessageFacts.
Import Errors Async Handler Scenario Service.

Lemma instanceof_with_message (m : string) (e : JsError) (c : ErrorClass) :
  instanceof (with_message m e) c = instanceof e c.
Proof. destruct e as [f|p]; reflexivity. Qed.

(** Only a Validation error has its [message] shown to the user: for every
    other error, of the framework or not, the user message is the same
    whatever the [message]. *)
Theorem user_message_hides_message (e : JsError) (m : string) :
  instanceof e CValidationError = false ->
  getUserMessage (with_message m e) = getUserMessage e.
Proof.
  intros Hv. unfold getUserMessage.
  rewrite !instanceof_with_message, Hv.
  destruct e as [f|p]; reflexivity.
Qed.

Lemma user_message_hides_message_witness :
  getUserMessage
    (with_message "upstream: ECONNREFUSED 10.0.0.7:5432"
       (Framework (ServiceError "API service unavailable" "api" None
                     JUndefined None "2024-05-01T10:00:00.000Z" None)))
  = "Service temporarily unavailable: api".
Proof.
  rewrite (user_message_hides_message
             (Framework (ServiceError "API service unavailable" "api" None
                           JUndefined None "2024-05-01T10:00:00.000Z" None))
             "upstream: ECONNREFUSED 10.0.0.7:5432").
  - reflexivity.
  - reflexivity.
Defined.

(** The user message of a Validation error is its [message] after a fixed
    prefix, so two Validation errors get the same user message only when
    their messages are the same. *)
Theorem validation_user_message_echoes (e e' : JsError) :
  instanceof e CValidationError = true ->
  instanceof e' CValidationError = true ->
  getUserMessage e = ("Please check your input: " ++ message_of e)%string /\
  (getUserMessage e = getUserMessage e' -> message_of e = message_of e').
Proof.
  intros He He'. unfold getUserMessage. rewrite He, He'.
  split; [reflexivity|]. simpl. intros H.
  repeat (injection H as H). exact H.
Qed.

Lemma validation_user_message_echoes_witness :
  getUserMessage
    (Framework (ValidationError "Email address is required" (Some "email")
                  JUndefined None "2024-05-01T10:00:00.000Z" None))
  = "Please check your input: Email address is required".
Proof.
  apply (validation_user_message_echoes
           (Framework (ValidationError "Email address is required"
                         (Some "email") JUndefined None
                         "2024-05-01T10:00:00.000Z" None))
           (Framework (ValidationError "Email address is required"
                         (Some "email") JUndefined None
                         "2024-05-01T10:00:00.000Z" None)));
    reflexivity.
Defined.

(** What the user is shown for a record built by each constructor: the
    generic sentence for [PluginError], the service name for
    [ServiceError], the message for [ValidationError], and the
    connectivity sentence for [NetworkError], which is tested before its
    parent class. *)
Theorem user_message_of_constructed (c : Construction) now stk :
  getUserMessage (Framework (construct c now stk)) =
  match c with
  | NewPluginError _ _ _ _ =>
      "An unexpected error occurred. Please try again."
  | NewServiceError _ service _ _ _ =>
      ("Service temporarily unavailable: " ++ service)%string
  | NewValidationError message _ _ _ =>
      ("Please check your input: " ++ message)%string
  | NewNetworkError _ _ _ _ =>
      "Network connection issue. Please try again."
  end.
Proof. destruct c; reflexivity. Qed.

(** Every constructor leaves [name] equal to the name of its own class,
    so two constructed records with the same [name] are instances of the
    same classes. *)
Theorem constructed_name_tells_class (c c' : Construction) now stk now' stk'
    (cls : ErrorClass) :
  name (construct c now stk) = name (construct c' now' stk') ->
  name (construct c now stk)
  = constructor_name (Framework (construct c now stk)) /\
  instanceof (Framework (construct c now stk)) cls
  = instanceof (Framework (construct c' now' stk')) cls.
Proof.
  intros Hname. split; [apply name_construct|].
  rewrite !name_construct in Hname. apply class_name_inj in Hname.
  simpl. now rewrite Hname.
Qed.

Lemma constructed_name_tells_class_witness :
  instanceof
    (Framework (construct (NewNetworkError "Request timeout" (Some 408) None None)
                  "2024-05-01T10:00:00.000Z" None)) CServiceError
  = instanceof
      (Framework (construct (NewNetworkError "No data received" None None
                               (Some "EMPTY"))
                    "2024-05-02T08:30:00.000Z" None)) CServiceError.
Proof.
  apply (constructed_name_tells_class
           (NewNetworkError "Request timeout" (Some 408) None None)
           (NewNetworkError "No data received" None None (Some "EMPTY"))
           "2024-05-01T10:00:00.000Z" None "2024-05-02T08:30:00.000Z" None
           CServiceError).
  reflexivity.
Defined.

(** A constructed record is non-recoverable exactly when it is a
    Validation record or the caller passed [recoverable = false]; in
    particular no argument makes a Validation record recoverable. *)
Theorem constructed_recoverable_iff (c : Construction) now stk :
  recoverable (construct c now stk) = false <->
  class_of (construct c now stk) = CValidationError \/
  passed_recoverable c = Some false.
Proof.
  rewrite recoverable_construct, class_of_construct.
  destruct c as [? ? ? [[]|]|? ? ? ? [[]|]|? ? ? ?|? ? ? ?]; simpl;
    split; intros H; try discriminate H; auto;
    destruct H as [H|H]; discriminate H.
Qed.

(** Whatever error reaches [handleComponentError], the component shows
    the generic sentence: the error is wrapped in a base [PluginError]
    (code [COMPONENT_ERROR], recoverable) before the user message is asked
    for, so neither its class nor its message reaches the user. *)
Theorem component_error_is_generic (as_value : JsError -> JsValue)
    (normalizedError : JsError) (context : string) now stk :
  let s := handleComponentError as_value normalizedError context now stk in
  state_error s = "An unexpected error occurred. Please try again." /\
  retryAvailable s = true /\
  code (lastError s) = "COMPONENT_ERROR" /\
  recoverable (lastError s) = true /\
  js_get (details (lastError s)) "originalError" = as_value normalizedError.
Proof. cbv zeta. repeat split. Qed.

End MessageFacts.

(** ** The plugin service *)

Section ServiceFacts.
Import Errors Async Handler Scenario Service.

(** [validateData] accepts exactly the data whose [name] is a non-empty
    string and whose [value] is absent or a number. *)
Theorem validateData_accepts (data : JsValue) :
  data <> JUndefined ->
  data <> JNull ->
  validateData data = true <->
  (exists s, js_get data "name" = JStr s /\ s <> "") /\
  (js_get data "value" = JUndefined \/ exists n, js_get data "value" = JNum n).
Proof.
  intros _ _. unfold validateData.
  destruct (js_get data "name") as [| |b|n|s|xs|fs] eqn:Hname; simpl;
    try (split; [discriminate | intros [(s' & Hs & _) _]; discriminate Hs]).
  - destruct b; simpl;
      (split; [discriminate | intros [(s' & Hs & _) _]; discriminate Hs]).
  - destruct (Z.eqb_spec n 0); simpl;
      (split; [discriminate | intros [(s' & Hs & _) _]; discriminate Hs]).
  - destruct (String.eqb_spec s "") as [->|Hne]; simpl.
    + split; [discriminate|]. intros [(s' & [= <-] & Hs') _]. now destruct Hs'.
    + destruct (js_get data "value") as [| |b|n|v|xs|fs]; simpl;
        (split;
         [ intros H; try discriminate H; split; eauto
         | intros [_ [H|[n' H]]]; try discriminate H; reflexivity ]).
Qed.

Lemma validateData_accepts_witness :
  validateData (JObj [("id", JStr "mock-1"); ("name", JStr "Mock Data Item");
                      ("value", JNum 42)]) = true.
Proof.
  apply (validateData_accepts
           (JObj [("id", JStr "mock-1"); ("name", JStr "Mock Data Item");
                  ("value", JNum 42)])); try discriminate.
  split.
  - exists "Mock Data Item". split; [reflexivity | discriminate].
  - right. exists 42. reflexivity.
Defined.

(** Every rejection of the operation of [fetchData] is an instance of
    [PluginError]: a failure of the API call that is not one is replaced
    by a Network error. *)
Theorem fetchData_rejects_with_PluginError {W : Type}
    (apiService : option (ApiService W)) now stk (w w' : W) (t : Thrown) :
  fetchData_operation apiService now stk w = (Rejected t, w') ->
  is_PluginError t = true.
Proof.
  unfold fetchData_operation.
  destruct apiService as [api|]; [|intros [= <- _]; reflexivity].
  destruct (get api DATA_URL w) as [r w1].
  destruct (fetchData_try now stk r) as [data|error] eqn:Htry;
    [discriminate|]. intros [= <- _].
  unfold fetchData_catch.
  destruct (is_PluginError error) eqn:Herr; [exact Herr | reflexivity].
Qed.

Lemma fetchData_rejects_with_PluginError_witness :
  is_PluginError
    (ThrowError (Framework
       (NetworkError "Failed to fetch plugin data: socket hang up" None
          (Some DATA_URL) None "2024-05-01T10:00:00.000Z" None))) = true.
Proof.
  apply (fetchData_rejects_with_PluginError (W := unit)
           (Some (mkApi unit
                    (fun _ w => (Rejected (ThrowError (Error_ "socket hang up" None)), w))
                    (fun _ _ w => (Fulfilled JNull, w))
                    (fun _ _ w => (Fulfilled JNull, w))
                    (fun _ w => (Fulfilled JNull, w))))
           "2024-05-01T10:00:00.000Z" None tt tt).
  reflexivity.
Defined.

(** When the API call fails with something that is not a [PluginError],
    the operation of [fetchData] rejects with a Network error that carries
    the request's URL, no status, the default code, [recoverable = true],
    and the cause's message after a fixed prefix (["Unknown error"] when
    the cause is not an [Error] object); the world is the one the call
    left. *)
Theorem fetchData_wraps_foreign_failure {W : Type} (api : ApiService W)
    now stk (w w' : W) (cause : Thrown) :
  get api DATA_URL w = (Rejected cause, w') ->
  is_PluginError cause = false ->
  exists p,
    fetchData_operation (Some api) now stk w
    = (Rejected (ThrowError (Framework p)), w') /\
    instanceof (Framework p) CNetworkError = true /\
    message p = ("Failed to fetch plugin data: " ++ message_or_unknown cause)%string /\
    ext p = ExtService "network" (SvcNetwork None (Some DATA_URL)) /\
    code p = "NETWORK_ERROR" /\
    recoverable p = true /\
    timestamp p = now.
Proof.
  intros Hget Hcause. unfold fetchData_operation. rewrite Hget. simpl.
  unfold fetchData_catch. rewrite Hcause.
  eexists. split; [reflexivity|]. repeat split.
Qed.

Lemma fetchData_wraps_foreign_failure_witness :
  exists p,
    fetchData_operation
      (Some (mkApi unit
               (fun _ w => (Rejected (ThrowValue (JStr "timeout")), w))
               (fun _ _ w => (Fulfilled JNull, w))
               (fun _ _ w => (Fulfilled JNull, w))
               (fun _ w => (Fulfilled JNull, w))))
      "2024-05-01T10:00:00.000Z" None tt
    = (Rejected (ThrowError (Framework p)), tt) /\
    message p = "Failed to fetch plugin data: Unknown error".
Proof.
  destruct (fetchData_wraps_foreign_failure
              (mkApi unit
                 (fun _ w => (Rejected (ThrowValue (JStr "timeout")), w))
                 (fun _ _ w => (Fulfilled JNull, w))
                 (fun _ _ w => (Fulfilled JNull, w))
                 (fun _ w => (Fulfilled JNull, w)))
              "2024-05-01T10:00:00.000Z" None tt tt
              (ThrowValue (JStr "timeout")) eq_refl eq_refl)
    as (p & Hrun & _ & Hmsg & _).
  exists p. split; [exact Hrun | exact Hmsg].
Defined.

(** A [PluginError] raised by the API call passes through the operation
    of [fetchData] unchanged. *)
Theorem fetchData_keeps_PluginError {W : Type} (api : ApiService W)
    now stk (w w' : W) (cause : Thrown) :
  get api DATA_URL w = (Rejected cause, w') ->
  is_PluginError cause = true ->
  fetchData_operation (Some api) now stk w = (Rejected cause, w').
Proof.
  intros Hget Hcause. unfold fetchData_operation. rewrite Hget. simpl.
  unfold fetchData_catch. now rewrite Hcause.
Qed.

Lemma fetchData_keeps_PluginError_witness :
  let cause :=
    ThrowError (Framework (ValidationError "Invalid token" (Some "token")
                             JNull None "2024-04-30T09:00:00.000Z" None)) in
  fetchData_operation
    (Some (mkApi unit
             (fun _ w => (Rejected cause, w))
             (fun _ _ w => (Fulfilled JNull, w))
             (fun _ _ w => (Fulfilled JNull, w))
             (fun _ w => (Fulfilled JNull, w))))
    "2024-05-01T10:00:00.000Z" None tt
  = (Rejected cause, tt).
Proof.
  cbv zeta.
  apply (fetchData_keeps_PluginError
           (mkApi unit
              (fun _ w =>
                 (Rejected
                    (ThrowError
                       (Framework (ValidationError "Invalid token" (Some "token")
                                     JNull None "2024-04-30T09:00:00.000Z" None))),
                  w))
              (fun _ _ w => (Fulfilled JNull, w))
              (fun _ _ w => (Fulfilled JNull, w))
              (fun _ w => (Fulfilled JNull, w)))
           "2024-05-01T10:00:00.000Z" None tt tt);
    reflexivity.
Defined.

(** The operation of [fetchData] fulfils exactly with the truthy [data]
    of an object response, and does so whether or not [validateData]
    accepts that data: the verdict of the check is not used. *)
Theorem fetchData_returns_unchecked_data {W : Type} (api : ApiService W)
    now stk (w w' : W) (response : JsValue) :
  get api DATA_URL w = (Fulfilled response, w') ->
  (forall data,
     fetchData_operation (Some api) now stk w = (Fulfilled data, w') <->
     typeof_object response = true /\ truthy response = true /\
     data = js_get response "data" /\ truthy data = true) /\
  (forall data w1,
     fetchData_operation (Some api) now stk w = (Fulfilled data, w1) ->
     w1 = w').
Proof.
  intros Hget. unfold fetchData_operation. rewrite Hget.
  unfold fetchData_try.
  destruct (truthy response) eqn:Htr, (typeof_object response) eqn:Hobj; simpl;
    try (split; [intros data; split; [discriminate | intros (? & ? & _); discriminate]
                | intros data w1; discriminate]).
  destruct (truthy (js_get response "data")) eqn:Hdata; simpl.
  - split.
    + intros data. split.
      * intros [= <-]. auto.
      * intros (_ & _ & -> & _). reflexivity.
    + intros data w1 [= _ <-]. reflexivity.
  - split.
    + intros data. split; [discriminate|].
      intros (_ & _ & -> & H). congruence.
    + intros data w1. discriminate.
Qed.

Lemma fetchData_returns_unchecked_data_witness :
  let data := JObj [("name", JStr ""); ("value", JStr "n/a")] in
  validateData data = false /\
  fetchData_operation
    (Some (mkApi unit
             (fun _ w => (Fulfilled (JObj [("status", JNum 200); ("data", data)]), w))
             (fun _ _ w => (Fulfilled JNull, w))
             (fun _ _ w => (Fulfilled JNull, w))
             (fun _ w => (Fulfilled JNull, w))))
    "2024-05-01T10:00:00.000Z" None tt
  = (Fulfilled data, tt).
Proof.
  cbv zeta. split; [reflexivity|].
  apply (proj1 (fetchData_returns_unchecked_data
                  (mkApi unit
                     (fun _ w =>
                        (Fulfilled
                           (JObj [("status", JNum 200);
                                  ("data", JObj [("name", JStr "");
                                                 ("value", JStr "n/a")])]),
                         w))
                     (fun _ _ w => (Fulfilled JNull, w))
                     (fun _ _ w => (Fulfilled JNull, w))
                     (fun _ w => (Fulfilled JNull, w)))
                  "2024-05-01T10:00:00.000Z" None tt tt _ eq_refl)).
  repeat split.
Defined.

(** Without an API service the operation of [fetchData] rejects, leaving
    the world untouched, with a Service error marked non-recoverable; the
    resolver under Retry, which [fetchData] selects, configured as
    [PluginService] configures it, still decides to retry it at attempt
    counts 0, 1 and 2, after waiting [1000 * 2^count] milliseconds. *)
Theorem fetchData_without_api_is_retried {W : Type} now stk (w : W)
    (count : Z) (r : Run W) :
  0 <= count < 3 ->
  exists p,
    fetchData_operation None now stk w
    = (Rejected (ThrowError (Framework p)), w) /\
    code p = "SERVICE_UNAVAILABLE" /\
    recoverable p = false /\
    getUserMessage (Framework p) = "Service temporarily unavailable: api" /\
    handleRetryStrategy PluginService_config (Framework p) count r
    = (mkResult true (Some true) JUndefined,
       mkRun (world r) (trace r ++ [EDelay (1000 * 2 ^ count)])).
Proof.
  intros Hc. eexists. split; [reflexivity|]. repeat split.
  rewrite handleRetryStrategy_run. simpl.
  destruct (Z.ltb_spec count 3) as [_|?]; [reflexivity | lia].
Qed.

Lemma fetchData_without_api_is_retried_witness :
  exists p,
    fetchData_operation (W := unit) None "2024-05-01T10:00:00.000Z" None tt
    = (Rejected (ThrowError (Framework p)), tt) /\
    delays (trace (snd (handleRetryStrategy PluginService_config (Framework p)
                          2 (start tt)))) = [4000].
Proof.
  destruct (fetchData_without_api_is_retried (W := unit)
              "2024-05-01T10:00:00.000Z" None tt 2 (start tt))
    as (p & Hrun & _ & _ & _ & Hretry); [lia|].
  exists p. split; [exact Hrun|]. rewrite Hretry. reflexivity.
Defined.

Lemma guarded_rejection {W : Type} (apiService : option (ApiService W)) stk
    (call : ApiService W -> W -> Outcome JsValue * W) (failure : string)
    (w w' : W) (t : Thrown) :
  guarded apiService stk call failure w = (Rejected t, w') ->
  t = ThrowError (Error_ "API service not available" stk) \/
  t = ThrowError (Error_ failure stk).
Proof.
  unfold guarded. destruct apiService as [api|]; [|intros [= <- _]; now left].
  destruct (call api w) as [[v|t0] w1]; [discriminate|].
  intros [= <- _]. now right.
Qed.

(** [saveData], [updateData] and [deleteData] hide the cause of a
    failure: whatever the API call raised, they reject with a built-in
    [Error] whose message is one of two fixed sentences, never with a
    [PluginError], and the user message of that rejection is the generic
    sentence. *)
Theorem mutations_hide_the_cause {W : Type}
    (apiService : option (ApiService W)) stk (id : string) (data : JsValue)
    (w w' : W) (t : Thrown) :
  saveData apiService stk data w = (Rejected t, w') \/
  updateData apiService stk id data w = (Rejected t, w') \/
  deleteData apiService stk id w = (Rejected t, w') ->
  exists m,
    t = ThrowError (Error_ m stk) /\
    In m ["API service not available"; "Failed to save plugin data";
          "Failed to update plugin data"; "Failed to delete plugin data"] /\
    is_PluginError t = false /\
    getUserMessage (Error_ m stk)
    = "An unexpected error occurred. Please try again.".
Proof.
  unfold saveData, updateData, deleteData.
  intros [H|[H|H]]; apply guarded_rejection in H as [->| ->];
    eexists; (split; [reflexivity|]); simpl; tauto.
Qed.

Lemma mutations_hide_the_cause_witness :
  exists m,
    ThrowError (Error_ "Failed to save plugin data" None)
    = ThrowError (Error_ m None) /\
    getUserMessage (Error_ m None)
    = "An unexpected error occurred. Please try again.".
Proof.
  destruct (mutations_hide_the_cause (W := unit)
              (Some (mkApi unit
                       (fun _ w => (Fulfilled JNull, w))
                       (fun _ _ w =>
                          (Rejected
                             (ThrowError
                                (Framework
                                   (NetworkError "Quota exceeded" (Some 429)
                                      (Some DATA_URL) None
                                      "2024-05-01T10:00:00.000Z" None))), w))
                       (fun _ _ w => (Fulfilled JNull, w))
                       (fun _ w => (Fulfilled JNull, w))))
              None "42" (JObj [("name", JStr "item")]) tt tt
              (ThrowError (Error_ "Failed to save plugin data" None)))
    as (m & Ht & _ & _ & Hmsg).
  - left. reflexivity.
  - exists m. split; [exact Ht | exact Hmsg].
Defined.

End ServiceFacts.
